(** * aclcitecheck: the verification and classification engine of [main.py]

    A shallow embedding of [CitationVerifier] ([_search_dblp],
    [_search_openalex], [verify]) and of the verification loop of [main],
    with the properties of the specification proved about it.

    Conventions of the embedding.
    - Python [str] values are Rocq strings; a character stands for the code
      point of the same number, so the text covered is the one whose code
      points are below 256.
    - A decoded JSON document is a value of [json]; a Python exception is a
      constructor of [exn], and code that may raise returns a [res].
    - The network is a state [W] that every HTTP request may change; the
      requests and the pauses of a computation are recorded as [event]s.
    - [logger] and [print] calls only write to the console and are left out.
    - [rapidfuzz] is a dependency, not code of this repository: [fuzz.ratio]
      is embedded by its documented definition (normalised Indel similarity)
      with the score as the exact rational that the returned double rounds,
      and [fuzz.partial_ratio] is a parameter of the development. *)

From Stdlib Require Import QArith Ascii String.
From stdpp Require Import gmap strings list fin_maps.
From Stdlib Require Import Permutation.

Local Open Scope string_scope.
Local Open Scope list_scope.

(** ** Python strings *)

Module PyStr.

Definition code (c : ascii) : N := N_of_ascii c.

(** [str.lower] on one character: A-Z and the Latin-1 capitals
    (U+00C0..U+00DE without the multiplication sign U+00D7) move up by 32. *)
Definition lower_char (c : ascii) : ascii :=
  let n := code c in
  if ((65 <=? n) && (n <=? 90))%N then ascii_of_N (n + 32)
  else if ((192 <=? n) && (n <=? 222) && negb (n =? 215))%N
       then ascii_of_N (n + 32)
       else c.

(** [s.lower()] *)
Fixpoint lower (s : string) : string :=
  match s with
  | EmptyString => EmptyString
  | String c s' => String (lower_char c) (lower s')
  end.

(** The characters [str.strip()] removes: those for which [str.isspace]
    holds (tab to carriage return, the four separators U+001C..U+001F,
    space, U+0085 and U+00A0). *)
Definition isspace (c : ascii) : bool :=
  let n := code c in
  (((9 <=? n) && (n <=? 13)) || ((28 <=? n) && (n <=? 32))
   || (n =? 133) || (n =? 160))%N.

Fixpoint lstrip (s : string) : string :=
  match s with
  | EmptyString => EmptyString
  | String c s' => if isspace c then lstrip s' else s
  end.

(** Drops the trailing white space: a character is kept when something
    that is kept follows it, or when it is no white space itself. *)
Fixpoint rstrip (s : string) : string :=
  match s with
  | EmptyString => EmptyString
  | String c s' =>
      match rstrip s' with
      | EmptyString => if isspace c then EmptyString else String c EmptyString
      | t => String c t
      end
  end.

(** [s.strip()] *)
Definition strip (s : string) : string := rstrip (lstrip s).

(** [s.startswith(p)] *)
Fixpoint startswith (p s : string) : bool :=
  match p, s with
  | EmptyString, _ => true
  | String _ _, EmptyString => false
  | String a p', String b s' =>
      if Ascii.eqb a b then startswith p' s' else false
  end.

(** [s.split(sep)[0]] for a separator that is not empty: the part of [s]
    before the first occurrence of [sep], all of [s] when there is none. *)
Fixpoint split_head (sep s : string) : string :=
  if startswith sep s then EmptyString
  else match s with
       | EmptyString => EmptyString
       | String c s' => String c (split_head sep s')
       end.

Definition chars (s : string) : list ascii := list_ascii_of_string s.

(** No character of [p] is a comma. *)
Fixpoint comma_free (p : string) : bool :=
  match p with
  | EmptyString => true
  | String a p' => negb (Ascii.eqb a ",") && comma_free p'
  end.

End PyStr.

(** ** [rapidfuzz.fuzz.ratio] *)

Module Fuzz.

(** Length of a longest common subsequence, by its recurrence. *)
Fixpoint lcs (xs ys : list ascii) : nat :=
  match xs with
  | [] => O
  | x :: xs' =>
      (fix inner (ys : list ascii) : nat :=
         match ys with
         | [] => O
         | y :: ys' =>
             if Ascii.eqb x y then S (lcs xs' ys')
             else Nat.max (lcs xs' ys) (inner ys')
         end) ys
  end.

(** The suffixes of a list, longest first. *)
Fixpoint suffixes (ys : list ascii) : list (list ascii) :=
  ys :: match ys with
        | [] => []
        | _ :: ys' => suffixes ys'
        end.

(** The same length by dynamic programming, one row of the table at a
    time. [prev] is the row of [xs'] against every suffix of [ys], longest
    suffix first; the result is the row of [x :: xs']. *)
Fixpoint lcs_row (x : ascii) (ys : list ascii) (prev : list nat) : list nat :=
  match ys, prev with
  | y :: ys', p :: prev' =>
      let r := lcs_row x ys' prev' in
      (if Ascii.eqb x y then S (hd O prev') else Nat.max p (hd O r)) :: r
  | _, _ => [O]
  end.

Definition lcs_table (xs ys : list ascii) : list nat :=
  fold_right (fun x prev => lcs_row x ys prev) (repeat O (S (length ys))) xs.

(** [LCSseq.similarity] *)
Definition lcs_seq_similarity (xs ys : list ascii) : nat :=
  hd O (lcs_table xs ys).

(** [Indel.distance]: the least number of insertions and deletions that
    turn one string into the other. *)
Definition indel_distance (s1 s2 : string) : Z :=
  Z.of_nat (String.length s1) + Z.of_nat (String.length s2)
  - 2 * Z.of_nat (lcs_seq_similarity (PyStr.chars s1) (PyStr.chars s2)).

(** [fuzz.ratio(s1, s2)]: [100 * (1 - distance / (len1 + len2))], and 100
    for two empty strings. *)
Definition ratio (s1 s2 : string) : Q :=
  let maximum := (Z.of_nat (String.length s1) + Z.of_nat (String.length s2))%Z in
  if (maximum =? 0)%Z then 100
  else 100 * (1 - inject_Z (indel_distance s1 s2) / inject_Z maximum).

End Fuzz.

(** ** Python values and exceptions *)

#[local] Set Warnings "-register-all".

(** A decoded JSON document ([resp.json()]): [None], [bool], a number,
    [str], [list] or [dict] with string keys. *)
Inductive json : Type :=
  | JNull
  | JBool (b : bool)
  | JNum (q : Q)
  | JStr (s : string)
  | JArr (l : list json)
  | JObj (m : gmap string json).

(** The exceptions the modelled code can meet. All of them derive from
    [Exception]. *)
Inductive exn : Type :=
  | AttributeError
  | KeyError
  | IndexError
  | TypeError
  | RequestException
  | JSONDecodeError.

Inductive res (A : Type) : Type :=
  | Ok (a : A)
  | Raise (e : exn).

Arguments Ok {A} a.
Arguments Raise {A} e.

Definition res_bind {A B : Type} (r : res A) (k : A -> res B) : res B :=
  match r with
  | Ok a => k a
  | Raise e => Raise e
  end.

Notation "'let?' x ':=' r 'in' k" := (res_bind r (fun x => k))
  (at level 10, x pattern, r at level 100, k at level 200).

Module Py.

(** [bool(v)] *)
Definition truthy (v : json) : bool :=
  match v with
  | JNull => false
  | JBool b => b
  | JNum q => negb (Qeq_bool q 0)
  | JStr s => negb (String.eqb s "")
  | JArr l => match l with [] => false | _ :: _ => true end
  | JObj m => negb (bool_decide (m = ∅))
  end.

(** [v.get(k, default)]: only a [dict] has the method. *)
Definition get (v : json) (k : string) (default : json) : res json :=
  match v with
  | JObj m => Ok (match m !! k with Some x => x | None => default end)
  | _ => Raise AttributeError
  end.

(** [v[0]]. A decoded JSON object has string keys only, so the integer 0
    is never one of them. *)
Definition index0 (v : json) : res json :=
  match v with
  | JArr (x :: _) => Ok x
  | JArr [] => Raise IndexError
  | JStr (String c _) => Ok (JStr (String c EmptyString))
  | JStr EmptyString => Raise IndexError
  | JObj _ => Raise KeyError
  | JNull | JBool _ | JNum _ => Raise TypeError
  end.

(** [v[k]] for a string [k]. *)
Definition item (v : json) (k : string) : res json :=
  match v with
  | JObj m => match m !! k with Some x => Ok x | None => Raise KeyError end
  | _ => Raise TypeError
  end.

Fixpoint single_chars (s : string) : list json :=
  match s with
  | EmptyString => []
  | String c s' => JStr (String c EmptyString) :: single_chars s'
  end.

(** The elements [for a in v] runs through: the items of a list, the keys
    of a dict, the characters of a string. *)
Definition iter (v : json) : res (list json) :=
  match v with
  | JArr l => Ok l
  | JObj m => Ok (JStr <$> (map_to_list m).*1)
  | JStr s => Ok (single_chars s)
  | JNull | JBool _ | JNum _ => Raise TypeError
  end.

(** [v.lower()]: only a [str] has the method. *)
Definition lower (v : json) : res string :=
  match v with
  | JStr s => Ok (PyStr.lower s)
  | _ => Raise AttributeError
  end.

(** [[f(a) for a in l]] *)
Fixpoint comprehension {A B : Type} (f : A -> res B) (l : list A) : res (list B) :=
  match l with
  | [] => Ok []
  | a :: l' => let? b := f a in let? bs := comprehension f l' in Ok (b :: bs)
  end.

End Py.

(** ** Configuration *)

Definition SIMILARITY_THRESHOLD : Q := 90.
Definition API_DELAY : Q := 1.

(** ** Records of the data model *)

(** The dict a provider returns for its top hit. [title], [year], [url] and
    the elements of [authors] are whatever the JSON answer holds there. *)
Record candidate : Type := Candidate {
  source : string;
  title : json;
  year : json;
  authors : list json;
  url : json
}.

(** What one HTTP GET gives back. *)
Inductive http_outcome : Type :=
  | Failed
      (** [requests.get] raised: no connection, time-out *)
  | Response (status_code : Z) (body : option json)
      (** an answer; [body] is [None] when [resp.json()] raises *).

Inductive endpoint : Type := DBLP | OpenAlex.

(** What a computation does to the outside, in order. *)
Inductive event : Type :=
  | EvGet (ep : endpoint) (q : string)
  | EvSleep (seconds : Q).

(** ** The outside world *)

(** The network and the clock: [W] is their state, [get_dblp] and
    [get_openalex] answer one GET to the provider's endpoint with the title
    as query, [sleep] is [time.sleep]. *)
Class Network (W : Type) : Type := {
  get_dblp : string -> W -> http_outcome * W;
  get_openalex : string -> W -> http_outcome * W;
  sleep : Q -> W -> W
}.

(** What the code takes from Python and [rapidfuzz] without this development
    defining it: [py_repr v] is [str(v)] for a value that is no [str],
    [partial_ratio] is [fuzz.partial_ratio]. *)
Class Library : Type := {
  py_repr : json -> string;
  partial_ratio : string -> string -> Q
}.

(** Computations: they read and change the world, leave a trace, and return
    or raise. *)
Definition M (W A : Type) : Type := W -> res A * W * list event.

Definition ret {W A : Type} (a : A) : M W A := fun w => (Ok a, w, []).

Definition bind {W A B : Type} (m : M W A) (k : A -> M W B) : M W B :=
  fun w =>
    match m w with
    | (Ok a, w1, ev1) =>
        let '(r, w2, ev2) := k a w1 in (r, w2, ev1 ++ ev2)
    | (Raise e, w1, ev1) => (Raise e, w1, ev1)
    end.

Definition lift {W A : Type} (r : res A) : M W A := fun w => (r, w, []).

Definition time_sleep {W : Type} {N : Network W} (d : Q) : M W unit :=
  fun w => (Ok tt, sleep d w, [EvSleep d]).

Notation "x <- m ;; k" := (bind m (fun x => k))
  (at level 100, m at next level, right associativity).

(** The three parts of what a computation leaves behind. *)
Definition result_of {W A : Type} (x : res A * W * list event) : res A := x.1.1.
Definition world_of {W A : Type} (x : res A * W * list event) : W := x.1.2.
Definition trace_of {W A : Type} (x : res A * W * list event) : list event := x.2.

(** ** The providers *)

(** [str(v)] *)
Definition py_str {L : Library} (v : json) : string :=
  match v with
  | JStr s => s
  | _ => py_repr v
  end.

(** [try: ... except Exception: ...] followed by [return None] *)
Definition try_except {A : Type} (body : res (option A)) : option A :=
  match body with
  | Ok r => r
  | Raise _ => None
  end.

(** [a["text"] if isinstance(a, dict) else str(a)] *)
Definition dblp_author {L : Library} (a : json) : res json :=
  match a with
  | JObj _ => Py.item a "text"
  | _ => Ok (JStr (py_str a))
  end.

(** [data.get("result", {}).get("hits", {}).get("hit", [])] *)
Definition dblp_hits (data : json) : res json :=
  let? result := Py.get data "result" (JObj ∅) in
  let? hits := Py.get result "hits" (JObj ∅) in
  Py.get hits "hit" (JArr []).

(** The body of the [try] of [_search_dblp], from the outcome of the GET. *)
Definition dblp_body {L : Library} (o : http_outcome) : res (option candidate) :=
  match o with
  | Failed => Raise RequestException
  | Response status_code body =>
      if (status_code =? 200)%Z then
        let? data := match body with Some d => Ok d | None => Raise JSONDecodeError end in
        let? hits := dblp_hits data in
        if Py.truthy hits then
          let? hit0 := Py.index0 hits in
          let? info := Py.item hit0 "info" in
          let? authors_obj := Py.get info "authors" (JObj ∅) in
          let? authors_raw := Py.get authors_obj "author" (JArr []) in
          let authors_raw :=
            match authors_raw with
            | JObj _ => JArr [authors_raw]
            | JStr _ => JArr [JObj {["text" := authors_raw]}]
            | _ => authors_raw
            end in
          let? elems := Py.iter authors_raw in
          let? authors := Py.comprehension dblp_author elems in
          let? title := Py.get info "title" (JStr "") in
          let? year := Py.get info "year" (JStr "N/A") in
          let? url := Py.get info "url" (JStr "") in
          Ok (Some {| source := "DBLP"; title := title; year := year;
                      authors := authors; url := url |})
        else Ok None
      else Ok None
  end.

(** [CitationVerifier._search_dblp] *)
Definition _search_dblp {W : Type} {N : Network W} {L : Library} (t : string) : M W (option candidate) :=
  fun w =>
    let '(o, w') := get_dblp t w in
    (Ok (try_except (dblp_body o)), w', [EvGet DBLP t]).

(** [a.get("author", {}).get("display_name", "")] *)
Definition openalex_author (a : json) : res json :=
  let? author := Py.get a "author" (JObj ∅) in
  Py.get author "display_name" (JStr "").

(** [resp.json().get("results", [])] *)
Definition openalex_results (data : json) : res json :=
  Py.get data "results" (JArr []).

(** The body of the [try] of [_search_openalex]. *)
Definition openalex_body (o : http_outcome) : res (option candidate) :=
  match o with
  | Failed => Raise RequestException
  | Response status_code body =>
      if (status_code =? 200)%Z then
        let? data := match body with Some d => Ok d | None => Raise JSONDecodeError end in
        let? results := openalex_results data in
        if Py.truthy results then
          let? top := Py.index0 results in
          let? authorships := Py.get top "authorships" (JArr []) in
          let? elems := Py.iter authorships in
          let? authors := Py.comprehension openalex_author elems in
          let? title := Py.get top "display_name" (JStr "") in
          let? year := Py.get top "publication_year" (JStr "N/A") in
          let? url := Py.get top "doi" (JStr "") in
          Ok (Some {| source := "OpenAlex"; title := title; year := year;
                      authors := authors; url := url |})
        else Ok None
      else Ok None
  end.

(** [CitationVerifier._search_openalex] *)
Definition _search_openalex {W : Type} {N : Network W} (t : string) : M W (option candidate) :=
  fun w =>
    let '(o, w') := get_openalex t w in
    (Ok (try_except (openalex_body o)), w', [EvGet OpenAlex t]).

(** ** The verifier *)

(** [fuzz.ratio(a.lower(), b.lower())] for a recorded title [a] and the
    title [b] of a candidate. *)
Definition title_score (a : string) (b : json) : res Q :=
  let? b' := Py.lower b in Ok (Fuzz.ratio (PyStr.lower a) b').

(** [CitationVerifier.verify] *)
Definition verify {W : Type} {N : Network W} {L : Library} (t : string) : M W (option candidate) :=
  result <- _search_dblp t ;;
  let fallback : M W (option candidate) :=
    _ <- time_sleep API_DELAY ;; _search_openalex t in
  match result with
  | Some r =>
      score <- lift (title_score t (title r)) ;;
      if Qlt_le_dec score 70 then fallback else ret (Some r)
  | None => fallback
  end.

(** ** The verification loop of [main] *)

(** An entry of the merged bibliography ([parse_bib_files]). *)
Record bib_entry : Type := BibEntry {
  bib_key : string;
  bib_title : string;
  bib_author : string;
  bib_year : string;
  bib_source_file : string;
  bib_raw_entry : gmap string string
}.

Inductive status : Type :=
  | Verified
  | MissingInBib
  | NotFound
  | TitleMismatch
  | AuthorMismatch.

(** The value of ["status"] in the report. *)
Definition status_text (s : status) : string :=
  match s with
  | Verified => "Verified"
  | MissingInBib => "Missing in Bib"
  | NotFound => "Not Found"
  | TitleMismatch => "Title Mismatch"
  | AuthorMismatch => "Author Mismatch"
  end.

#[global] Instance status_eq_dec : EqDecision status.
Proof. solve_decision. Defined.

(** An element of [all_citations_report]. *)
Record citation_info : Type := CitationInfo {
  ci_key : string;
  ci_status : status;
  ci_bib_metadata : option bib_entry;
  ci_verification_result : option candidate
}.

(** An element of [hallucination_report]; the four shapes of the dict. *)
Inductive issue : Type :=
  | MissingIssue (key reason : string)
  | NotFoundIssue (key bib_title reason risk_level : string)
  | TitleIssue (key bib_title : string) (found_title : json)
      (similarity_score : Q) (source : string) (reason risk_level : string)
  | AuthorIssue (key bib_author : string) (found_authors : list json)
      (reason risk_level : string).

Definition issue_key (i : issue) : string :=
  match i with
  | MissingIssue k _ | NotFoundIssue k _ _ _
  | TitleIssue k _ _ _ _ _ _ | AuthorIssue k _ _ _ _ => k
  end.

(** The value of ["risk_level"], when the dict has the key. *)
Definition issue_risk_level (i : issue) : option string :=
  match i with
  | MissingIssue _ _ => None
  | NotFoundIssue _ _ _ r | TitleIssue _ _ _ _ _ _ r | AuthorIssue _ _ _ _ r => Some r
  end.

(** [author.split(",")[0].split(" and ")[0].strip()] *)
Definition bib_author_first (author : string) : string :=
  PyStr.strip (PyStr.split_head " and " (PyStr.split_head "," author)).

(** [any(fuzz.partial_ratio(bib_author_first.lower(), fa.lower()) > 80
         for fa in found_authors)]: the generator stops at the first name
    that matches, and raises at a name that is no [str] met before. *)
Fixpoint author_match {L : Library} (first : string) (found_authors : list json) : res bool :=
  match found_authors with
  | [] => Ok false
  | fa :: rest =>
      let? fa' := Py.lower fa in
      if Qlt_le_dec 80 (partial_ratio (PyStr.lower first) fa') then Ok true
      else author_match first rest
  end.

(** The first lines of a turn of the loop: the [citation_info] of [key]
    with the given status and verification result. *)
Definition info_of (bib_data : gmap string bib_entry) (key : string)
    (st : status) (vr : option candidate) : citation_info :=
  {| ci_key := key; ci_status := st;
     ci_bib_metadata := bib_data !! key; ci_verification_result := vr |}.

(** The turn of the loop after [match_result = verifier.verify(title)]: the
    [citation_info] of the key and the entry for [hallucination_report], if
    there is one. *)
Definition classify_match {L : Library}
    (bib_data : gmap string bib_entry) (key : string) (entry : bib_entry)
    (match_result : option candidate)
  : res (citation_info * option issue) :=
  let t := bib_title entry in
  match match_result with
  | None =>
      Ok (info_of bib_data key NotFound None,
          Some (NotFoundIssue key t "Paper not found in DBLP or OpenAlex" "High"))
  | Some m =>
      let found_title := title m in
      let? score := title_score t found_title in
      if Qlt_le_dec score SIMILARITY_THRESHOLD then
        Ok (info_of bib_data key TitleMismatch (Some m),
            Some (TitleIssue key t found_title score (source m)
                    "Title similarity below threshold" "Medium"))
      else
        let found_authors := authors m in
        let? matched := author_match (bib_author_first (bib_author entry)) found_authors in
        if negb matched then
          Ok (info_of bib_data key AuthorMismatch (Some m),
              Some (AuthorIssue key (bib_author entry) found_authors
                      "First author mismatch" "Medium"))
        else Ok (info_of bib_data key Verified (Some m), None)
  end.

(** One turn of the [for] loop of [main], without the two [append]s. *)
Definition classify {W : Type} {N : Network W} {L : Library}
    (bib_data : gmap string bib_entry) (key : string)
  : M W (citation_info * option issue) :=
  match bib_data !! key with
  | None =>
      ret (info_of bib_data key MissingInBib None,
           Some (MissingIssue key "Citation key found in TeX but missing in .bib files"))
  | Some entry =>
      match_result <- verify (bib_title entry) ;;
      lift (classify_match bib_data key entry match_result)
  end.

(** The two lists the loop fills. *)
Record reports : Type := Reports {
  all_citations_report : list citation_info;
  hallucination_report : list issue
}.

Definition append_outcome (r : reports) (o : citation_info * option issue) : reports :=
  {| all_citations_report := all_citations_report r ++ [o.1];
     hallucination_report :=
       hallucination_report r ++ match o.2 with Some i => [i] | None => [] end |}.

(** [for idx, key in enumerate(tex_keys): ...], with [keys] the elements of
    the set in the order the loop meets them. *)
Fixpoint verification_loop {W : Type} {N : Network W} {L : Library}
    (bib_data : gmap string bib_entry) (keys : list string) (r : reports)
  : M W reports :=
  match keys with
  | [] => ret r
  | key :: keys' =>
      o <- classify bib_data key ;;
      verification_loop bib_data keys' (append_outcome r o)
  end.

(** [main] between the scan of the inputs and the writing of the files:
    [None] is the early [return] on an empty input. *)
Definition main {W : Type} {N : Network W} {L : Library}
    (tex_keys : list string) (bib_data : gmap string bib_entry)
  : M W (option reports) :=
  match tex_keys with
  | [] => ret None
  | _ :: _ =>
      if bool_decide (bib_data = ∅) then ret None
      else
        r <- verification_loop bib_data tex_keys (Reports [] []) ;;
        ret (Some r)
  end.

(** The request and the search by provider, and for each provider the
    expression whose value is its result set. *)
Definition http_get {W : Type} {N : Network W} (ep : endpoint) : string -> W -> http_outcome * W :=
  match ep with DBLP => get_dblp | OpenAlex => get_openalex end.

Definition search {W : Type} {N : Network W} {L : Library} (ep : endpoint) : string -> M W (option candidate) :=
  match ep with DBLP => _search_dblp | OpenAlex => _search_openalex end.

Definition result_set (ep : endpoint) (data : json) : res json :=
  match ep with DBLP => dblp_hits data | OpenAlex => openalex_results data end.

(** The ways a provider has no answer: the request fails, the status is not
    200, or the result set of the decoded answer is empty. *)
Inductive soft_failure (ep : endpoint) : http_outcome -> Prop :=
  | transport_error : soft_failure ep Failed
  | bad_status (s : Z) (b : option json) :
      s ≠ 200%Z -> soft_failure ep (Response s b)
  | empty_result_set (data v : json) :
      result_set ep data = Ok v -> Py.truthy v = false ->
      soft_failure ep (Response 200 (Some data)).

(** ** An instance to run the scenarios *)

Module Demo.

(** A network that answers from two fixed tables and counts the requests. *)
Definition canned (dblp openalex : string -> http_outcome) : Network nat :=
  {| get_dblp t n := (dblp t, S n);
     get_openalex t n := (openalex t, S n);
     sleep _ n := n |}.

Definition Qmax (a b : Q) : Q := if Qlt_le_dec a b then b else a.

(** The best [fuzz.ratio] of [shorter] against a window of [longer]: its
    short prefixes, its blocks of the length of [shorter], its short
    suffixes. *)
Definition best_window (shorter longer : string) : Q :=
  let n := String.length shorter in
  let m := String.length longer in
  match n, m with
  | O, O => 100
  | O, _ => 0
  | _, _ =>
      let ws := map (fun k => substring 0 k longer) (seq 1 (n - 1))
                ++ map (fun i => substring i n longer) (seq 0 m) in
      fold_right Qmax 0%Q (map (Fuzz.ratio shorter) ws)
  end.

(** [fuzz.partial_ratio] as its documentation describes it: the shorter
    string is slid over the longer one, and two strings of one length are
    slid over each other both ways. *)
Definition partial_ratio_windows (s1 s2 : string) : Q :=
  let n1 := String.length s1 in
  let n2 := String.length s2 in
  if (n1 =? n2)%nat then Qmax (best_window s1 s2) (best_window s2 s1)
  else if (n1 <? n2)%nat then best_window s1 s2
  else best_window s2 s1.

(** [str] of [None], [True] and [False]. The scenarios meet no other value
    that is not a string, and no property below is stated about this
    function: for a number, a list or an object it is not [str]. *)
Definition repr_atom (v : json) : string :=
  match v with
  | JNull => "None"
  | JBool true => "True"
  | JBool false => "False"
  | _ => ""
  end.

Definition library : Library :=
  {| py_repr := repr_atom; partial_ratio := partial_ratio_windows |}.

Definition obj (l : list (string * json)) : json := JObj (list_to_map l).

(** An answer of DBLP with one hit. *)
Definition dblp_answer (t : string) (names : list string) : http_outcome :=
  Response 200 (Some (obj [("result", obj [("hits", obj [
    ("@total", JStr "1");
    ("hit", JArr [obj [("info", obj [
       ("authors", obj [("author", JArr (map (fun n => obj [("text", JStr n)]) names))]);
       ("title", JStr t); ("year", JStr "2017");
       ("url", JStr "https://dblp.org/rec/conf/nips/VaswaniSPUJGKP17")])]])])])])).

(** An answer of DBLP without hits: the key ["hit"] is absent. *)
Definition dblp_no_hit : http_outcome :=
  Response 200 (Some (obj [("result", obj [("hits", obj [("@total", JStr "0")])])])).

(** An answer of OpenAlex with one result. *)
Definition openalex_answer (t : string) (names : list string) : http_outcome :=
  Response 200 (Some (obj [("results", JArr [obj [
    ("display_name", JStr t); ("publication_year", JNum 2017);
    ("authorships",
      JArr (map (fun n => obj [("author", obj [("display_name", JStr n)])]) names));
    ("doi", JStr "https://doi.org/10.48550/arxiv.1706.03762")]])])).

Definition openalex_no_result : http_outcome :=
  Response 200 (Some (obj [("results", JArr [])])).

Definition entry (k t a : string) : bib_entry :=
  {| bib_key := k; bib_title := t; bib_author := a; bib_year := "2017";
     bib_source_file := "refs.bib"; bib_raw_entry := ∅ |}.

(** The bibliography of the scenarios. *)
Definition bib : gmap string bib_entry :=
  <["bar2021" := entry "bar2021" "Attention Is All You Need" "Vaswani, Ashish"]> ∅.

Definition attention : string := "Attention Is All You Need".

(** Scenario 2: the primary provider has no hit, the secondary one returns
    the same title and the author. *)
Definition net_secondary : Network nat :=
  canned (fun _ => dblp_no_hit)
         (fun _ => openalex_answer attention ["Ashish Vaswani"; "Noam Shazeer"]).

Definition vaswani_openalex : candidate :=
  {| source := "OpenAlex"; title := JStr attention; year := JNum 2017;
     authors := [JStr "Ashish Vaswani"; JStr "Noam Shazeer"];
     url := JStr "https://doi.org/10.48550/arxiv.1706.03762" |}.

(** The primary provider has the paper, the secondary one is down. *)
Definition net_primary : Network nat :=
  canned (fun _ => dblp_answer "Attention is All you Need." ["Ashish Vaswani"])
         (fun _ => Failed).

Definition vaswani_dblp : candidate :=
  {| source := "DBLP"; title := JStr "Attention is All you Need.";
     year := JStr "2017"; authors := [JStr "Ashish Vaswani"];
     url := JStr "https://dblp.org/rec/conf/nips/VaswaniSPUJGKP17" |}.

(** The primary provider returns another paper, the secondary one nothing. *)
Definition net_low : Network nat :=
  canned (fun _ => dblp_answer "Deep Residual Learning for Image Recognition." ["Kaiming He"])
         (fun _ => openalex_no_result).

(** The secondary provider returns a title that scores below 90. *)
Definition net_mismatch : Network nat :=
  canned (fun _ => dblp_no_hit)
         (fun _ => openalex_answer "Attention Is Not Enough" ["Ashish Vaswani"]).

Definition not_enough : candidate :=
  {| source := "OpenAlex"; title := JStr "Attention Is Not Enough"; year := JNum 2017;
     authors := [JStr "Ashish Vaswani"];
     url := JStr "https://doi.org/10.48550/arxiv.1706.03762" |}.



(** Both providers are down. *)
Definition net_down : Network nat :=
  canned (fun _ => Failed) (fun _ => Response 503 None).

(** The answers of a canned network, by provider. *)
Definition answers (dblp openalex : string -> http_outcome)
    (ep : endpoint) : string -> http_outcome :=
  match ep with DBLP => dblp | OpenAlex => openalex end.

(** The reports of scenario 2 with a second key that has no entry. *)
Definition reports_secondary : reports :=
  {| all_citations_report :=
       [info_of bib "bar2021" Verified (Some vaswani_openalex);
        info_of bib "foo2020" MissingInBib None];
     hallucination_report :=
       [MissingIssue "foo2020" "Citation key found in TeX but missing in .bib files"] |}.

End Demo.

(** The network [N] with another secondary provider. *)
Definition with_secondary {W : Type} (N : Network W)
    (openalex : string -> W -> http_outcome * W) : Network W :=
  {| get_dblp := get_dblp; get_openalex := openalex; sleep := sleep |}.

(** ** Auxiliary notions *)


(** The entries that a list of outcomes adds to [hallucination_report]. *)
Definition issues_of (os : list (citation_info * option issue)) : list issue :=
  os ≫= fun o => match o.2 with Some i => [i] | None => [] end.

(** A candidate as the data model describes it: its title is a string and
    its authors are strings. *)
Definition is_str (v : json) : Prop := exists s : string, v = JStr s.

Definition well_formed (c : candidate) : Prop :=
  is_str (title c) /\ Forall is_str (authors c).

(** Every candidate a provider returns is well formed. *)
Definition providers_well_formed {W : Type} {N : Network W} {L : Library} : Prop :=
  forall (ep : endpoint) (t : string) (w : W) (c : candidate),
    result_of (search ep t w) = Ok (Some c) -> well_formed c.

(** [o] is what a turn of the loop makes of [key] in some state of the
    world. *)
Definition classified {W : Type} {N : Network W} {L : Library}
    (bib_data : gmap string bib_entry) (key : string)
    (o : citation_info * option issue) : Prop :=
  exists w : W, result_of (classify bib_data key w) = Ok o.

(** ** The specification's wording, to compare with the code *)

(** The recorded author string cut at its first separator, a comma or the
    conjunction [" and "]. *)
Fixpoint cut_at_separator (s : string) : string :=
  if PyStr.startswith "," s || PyStr.startswith " and " s then EmptyString
  else match s with
       | EmptyString => EmptyString
       | String c s' => String c (cut_at_separator s')
       end.

(** The first author token: the leading part of the cut, without the white
    space around it. *)
Definition leading_token (author : string) : string :=
  PyStr.strip (cut_at_separator author).

(** The world in which [verify] asks the secondary provider, when it does:
    after the request to the primary one and the pause. *)
Definition fallback_world {W : Type} {N : Network W} {L : Library}
    (t : string) (w : W) : W :=
  sleep API_DELAY (world_of (_search_dblp t w)).

(** "Both providers yielded no candidate for the title": the primary one when
    asked in the world [w], the secondary one when asked after it and after
    the pause. *)
Definition both_providers_none {W : Type} {N : Network W} {L : Library}
    (t : string) (w : W) : Prop :=
  result_of (_search_dblp t w) = Ok None
  /\ result_of (_search_openalex t (fallback_world t w)) = Ok None.

(** "No provider gave [verify] a candidate it keeps": the primary one yielded
    none, or one whose title scores below 70, and the secondary one, asked
    then, yielded none. *)
Definition no_candidate_kept {W : Type} {N : Network W} {L : Library}
    (t : string) (w : W) : Prop :=
  (result_of (_search_dblp t w) = Ok None
   \/ exists (c : candidate) (s : Q),
        result_of (_search_dblp t w) = Ok (Some c)
        /\ title_score t (title c) = Ok s /\ (s < 70)%Q)
  /\ result_of (_search_openalex t (fallback_world t w)) = Ok None.

(** "Some name of the list matches the token": its partial ratio against the
    token is above 80, both in lower case. *)
Definition some_name_matches {L : Library} (token : string) (names : list string) : Prop :=
  Exists (fun n => (80 < partial_ratio (PyStr.lower token) (PyStr.lower n))%Q) names.

(** "The outcome of the key is NotFound with risk High". *)
Definition not_found_high {W : Type} {N : Network W} {L : Library}
    (bib_data : gmap string bib_entry) (key : string) (w : W) : Prop :=
  exists o : citation_info * option issue,
    result_of (classify bib_data key w) = Ok o
    /\ ci_status o.1 = NotFound
    /\ (issue_risk_level <$> o.2) = Some (Some "High").

(** "The status of the outcome is not Verified". *)
Definition not_verified (ci : citation_info) : bool :=
  negb (bool_decide (ci_status ci = Verified)).

(** The outcome of a key carries the key; it has an entry for the issues
    report, with the same key, exactly when its status is not Verified. *)
Definition outcome_for (key : string) (o : citation_info * option issue) : Prop :=
  ci_key o.1 = key
  /\ match o.2 with
     | Some i => issue_key i = key /\ not_verified o.1 = true
     | None => not_verified o.1 = false
     end.

(** "The issues report has an entry for a key exactly when the outcome of
    that key is not Verified": the keys of the issues, in order, are the keys
    of the outcomes that are not Verified. *)
Definition issues_match_outcomes (r : reports) : Prop :=
  issue_key <$> hallucination_report r
  = ci_key <$> filter (fun ci => not_verified ci = true) (all_citations_report r).

(** "The answers of the providers are fixed functions of the queried title". *)
Definition answers_fixed {W : Type} (N : Network W)
    (f : endpoint -> string -> http_outcome) : Prop :=
  forall (ep : endpoint) (t : string) (w : W), (http_get ep t w).1 = f ep t.

(** "Two runs produce the same outcome lists, order aside": both stop early,
    or both abort on the same exception, or both complete with reports that
    are permutations of each other. *)
Definition same_reports (a b : res (option reports)) : Prop :=
  match a, b with
  | Ok (Some r1), Ok (Some r2) =>
      Permutation (all_citations_report r1) (all_citations_report r2)
      /\ Permutation (hallucination_report r1) (hallucination_report r2)
  | Ok None, Ok None => True
  | Raise e1, Raise e2 => e1 = e2
  | _, _ => False
  end.

(** * The inputs and the outputs of [main] *)

(** ** [scan_tex_files] *)

Module Tex.

Definition newline : ascii := "010".
Definition backslash : ascii := "\".
Definition percent : ascii := "%".

(** [re.sub(r"(?<!\\)%.*", "", content)], read from left to right. A
    percent sign that no backslash precedes starts a match, which runs up
    to the end of the line, the newline excluded ([.] matches every
    character but the newline). [in_comment] says that the character is
    inside a match, [escaped] that the character before it is a backslash. *)
Fixpoint strip_from (in_comment escaped : bool) (s : string) : string :=
  match s with
  | EmptyString => EmptyString
  | String c s' =>
      if in_comment then
        if Ascii.eqb c newline then String c (strip_from false false s')
        else strip_from true false s'
      else if Ascii.eqb c percent && negb escaped then strip_from true false s'
      else String c (strip_from false (Ascii.eqb c backslash) s')
  end.

Definition strip_comments (content : string) : string :=
  strip_from false false content.

(** [[a-zA-Z]] *)
Definition is_letter (c : ascii) : bool :=
  let n := PyStr.code c in
  (((65 <=? n) && (n <=? 90)) || ((97 <=? n) && (n <=? 122)))%N.

(** [[^{}]] *)
Definition is_brace (c : ascii) : bool :=
  Ascii.eqb c "{" || Ascii.eqb c "}".

(** What [[a-zA-Z]*] leaves: the text after the leading letters. *)
Fixpoint drop_letters (s : string) : string :=
  match s with
  | EmptyString => EmptyString
  | String c s' => if is_letter c then drop_letters s' else s
  end.

(** What [\*?] leaves. *)
Definition drop_star (s : string) : string :=
  match s with
  | String "*" s' => s'
  | _ => s
  end.

(** What [[^{}]+] takes, as much as it can, and what it leaves. *)
Fixpoint take_group (s : string) : string * string :=
  match s with
  | EmptyString => (EmptyString, EmptyString)
  | String c s' =>
      if is_brace c then (EmptyString, s)
      else let '(g, rest) := take_group s' in (String c g, rest)
  end.

(** [s[n:]] *)
Fixpoint drop (n : nat) (s : string) : string :=
  match n, s with
  | O, _ => s
  | S n', EmptyString => EmptyString
  | S n', String _ s' => drop n' s'
  end.

(** A match of [citation_pattern], [\\cite[a-zA-Z]*\*?\{([^{}]+)\}], at the
    head of [s]: its group and the text after the match. Each of the three
    repetitions is followed by a character it cannot take itself, so taking
    fewer characters never turns a failure into a match. *)
Definition match_cite (s : string) : option (string * string) :=
  if PyStr.startswith "\cite" s then
    match drop_star (drop_letters (drop 5 s)) with
    | String "{" s1 =>
        match take_group s1 with
        | (String c g, String "}" rest) => Some (String c g, rest)
        | _ => None
        end
    | _ => None
    end
  else None.

(** [re.findall(citation_pattern, content)]: the groups of the matches,
    which do not overlap. The text is tried position by position; [skip] is
    the number of positions still inside the last match. *)
Fixpoint findall_from (skip : nat) (s : string) : list string :=
  match s with
  | EmptyString => []
  | String _ s' =>
      match skip with
      | S k => findall_from k s'
      | O =>
          match match_cite s with
          | Some (g, rest) =>
              g :: findall_from (String.length s' - String.length rest) s'
          | None => findall_from O s'
          end
      end
  end.

Definition findall_cite (content : string) : list string :=
  findall_from O content.

(** [match.split(",")] *)
Fixpoint split_comma (s : string) : list string :=
  match s with
  | EmptyString => [EmptyString]
  | String c s' =>
      if Ascii.eqb c "," then EmptyString :: split_comma s'
      else match split_comma s' with
           | h :: t => String c h :: t
           | [] => [String c EmptyString]
           end
  end.

(** [[k.strip() for k in match.split(",")]] *)
Definition match_keys (m : string) : list string :=
  PyStr.strip <$> split_comma m.

(** The keys one file adds to [unique_keys]. *)
Definition content_keys (content : string) : gset string :=
  list_to_set (findall_cite (strip_comments content) ≫= match_keys).

(** [scan_tex_files], from what reading each of the [.tex] files gives:
    its content, or [None] when [open] or [read] raises. A file that cannot
    be read adds nothing. *)
Definition scan_tex_files (tex_files : list (option string)) : gset string :=
  fold_left
    (fun unique_keys f =>
       match f with
       | Some content => unique_keys ∪ content_keys content
       | None => unique_keys
       end)
    tex_files ∅.

End Tex.

(** ** [parse_bib_files] *)

Module Bib.

(** [re.sub(r"[\{\}\n]", "", s)] *)
Fixpoint remove_markup (s : string) : string :=
  match s with
  | EmptyString => EmptyString
  | String c s' =>
      if Tex.is_brace c || Ascii.eqb c Tex.newline then remove_markup s'
      else String c (remove_markup s')
  end.

(** [s.replace("\n", " ")] *)
Fixpoint newlines_to_spaces (s : string) : string :=
  match s with
  | EmptyString => EmptyString
  | String c s' =>
      String (if Ascii.eqb c Tex.newline then " "%char else c) (newlines_to_spaces s')
  end.

(** An element of [bib_db.entries]: the fields of a BibTeX entry. *)
Abbreviation raw_entry := (gmap string string).

(** A [.bib] file: its name and what [bibtexparser.load] gives for it,
    [None] when [open] or the parser raises. *)
Record bib_file : Type := BibFile {
  file_name : string;
  entries : option (list raw_entry)
}.

(** [entry.get(k, default)] *)
Definition field (entry : raw_entry) (k default : string) : string :=
  match entry !! k with Some v => v | None => default end.

(** The value stored for an entry whose identifier is [id]. *)
Definition record_of (name id : string) (entry : raw_entry) : bib_entry :=
  {| bib_key := id;
     bib_title := PyStr.strip (remove_markup (field entry "title" ""));
     bib_author := newlines_to_spaces (field entry "author" "");
     bib_year := field entry "year" "N/A";
     bib_source_file := name;
     bib_raw_entry := entry |}.

(** The loop over the entries of one file. [entry["ID"]] raises [KeyError]
    for an entry without identifier; the [except] around the file ends the
    loop there, and what was stored before stays. *)
Fixpoint add_entries (name : string) (es : list raw_entry)
    (master_bib_map : gmap string bib_entry) : gmap string bib_entry :=
  match es with
  | [] => master_bib_map
  | entry :: es' =>
      match entry !! "ID" with
      | Some id => add_entries name es' (<[id := record_of name id entry]> master_bib_map)
      | None => master_bib_map
      end
  end.

(** [parse_bib_files], from the [.bib] files in the order they are read. *)
Definition parse_bib_files (bib_files : list bib_file) : gmap string bib_entry :=
  fold_left
    (fun master_bib_map f =>
       match entries f with
       | Some es => add_entries (file_name f) es master_bib_map
       | None => master_bib_map
       end)
    bib_files ∅.

End Bib.

(** ** The end of [main] *)

(** What [main] writes and prints after the loop. *)
Inductive output : Type :=
  | WriteAllCitations (report : list citation_info)
      (** [output/all_citations.json] *)
  | WriteHallucinationReport (report : list issue)
      (** [output/hallucination_report.json] *)
  | PrintFoundIssues (n : nat)
  | PrintNoHallucinations
  | PrintSaved.

(** Step 5 of [main]. *)
Definition write_reports (r : reports) : list output :=
  WriteAllCitations (all_citations_report r)
  :: match hallucination_report r with
     | [] => [PrintNoHallucinations]
     | _ :: _ =>
         [WriteHallucinationReport (hallucination_report r);
          PrintFoundIssues (length (hallucination_report r))]
     end
  ++ [PrintSaved].

(** [main] from the files read to what it writes: the scan, the
    bibliography, the loop over the keys in the order [order] in which the
    set is met, and the reports. [None] is an early [return]. *)
Definition run {W : Type} {N : Network W} {L : Library}
    (bib_files : list Bib.bib_file) (order : list string)
  : M W (option (list output)) :=
  r <- main order (Bib.parse_bib_files bib_files) ;;
  ret (write_reports <$> r).

(** [order] is an order in which the keys of the scan can be met. *)
Definition enumerates (order : list string) (tex_files : list (option string)) : Prop :=
  NoDup order /\ forall k : string, k ∈ order <-> k ∈ Tex.scan_tex_files tex_files.

(** "The primary provider gave [verify] no candidate it keeps": it yielded
    none, or one whose title scores below 70. *)
Definition no_primary_kept {W : Type} {N : Network W} {L : Library}
    (t : string) (w : W) : Prop :=
  result_of (_search_dblp t w) = Ok None
  \/ exists (c : candidate) (s : Q),
       result_of (_search_dblp t w) = Ok (Some c)
       /\ title_score t (title c) = Ok s /\ (s < 70)%Q.

(** The answer of DBLP that holds the hit [x] and nothing else, and the one
    whose only hit has the object [info] under ["info"]. *)
Definition dblp_single_hit (x : json) : http_outcome :=
  Response 200
    (Some (JObj {["result" := JObj {["hits" := JObj {["hit" := JArr [x]]}]}]})).

Definition dblp_hit (info : gmap string json) : http_outcome :=
  dblp_single_hit (JObj {["info" := JObj info]}).

(** The fields of an outcome agree with its status. *)
Definition outcome_consistent (bib_data : gmap string bib_entry)
    (ci : citation_info) : Prop :=
  ci_bib_metadata ci = bib_data !! ci_key ci
  /\ (ci_bib_metadata ci = None <-> ci_status ci = MissingInBib)
  /\ (ci_verification_result ci = None <->
      ci_status ci = MissingInBib \/ ci_status ci = NotFound).

(** What an entry of the issues report says holds of the bibliography. *)
Definition issue_justified (bib_data : gmap string bib_entry) (i : issue) : Prop :=
  match i with
  | MissingIssue k _ => bib_data !! k = None
  | NotFoundIssue k t _ risk =>
      risk = "High"
      /\ exists e : bib_entry, bib_data !! k = Some e /\ t = bib_title e
  | TitleIssue k t found score src _ risk =>
      risk = "Medium"
      /\ (exists e : bib_entry, bib_data !! k = Some e /\ t = bib_title e)
      /\ title_score t found = Ok score
      /\ (score < 90)%Q
      /\ (src = "OpenAlex" \/ (src = "DBLP" /\ (70 <= score)%Q))
  | AuthorIssue k a _ _ risk =>
      risk = "Medium"
      /\ exists e : bib_entry, bib_data !! k = Some e /\ a = bib_author e
  end.

(** The titles a run has to check: those of the entries of the keys, in the
    order of the keys. *)
Definition titles_to_check (bib_data : gmap string bib_entry)
    (keys : list string) : list string :=
  omap (fun k => bib_title <$> bib_data !! k) keys.

(** The two traces [verify] can leave for a title. *)
Definition verify_trace (t : string) (tr : list event) : Prop :=
  tr = [EvGet DBLP t]
  \/ tr = [EvGet DBLP t; EvSleep API_DELAY; EvGet OpenAlex t].

(** ** Predicates on text, for the statements *)

Module Text.

(** Every character of [s] satisfies [P]. *)
Fixpoint all (P : ascii -> bool) (s : string) : bool :=
  match s with
  | EmptyString => true
  | String c s' => P c && all P s'
  end.

Definition not_char (a c : ascii) : bool := negb (Ascii.eqb c a).

(** [s] has no brace, no comma, no newline. *)
Definition brace_free (s : string) : bool := all (fun c => negb (Tex.is_brace c)) s.
Definition comma_free (s : string) : bool := all (not_char ",") s.
Definition newline_free (s : string) : bool := all (not_char Tex.newline) s.
Definition letters (s : string) : bool := all Tex.is_letter s.

(** [s] has no white space at either end: [s.strip()] is [s]. *)
Definition trimmed (s : string) : Prop := PyStr.strip s = s.

(** No percent sign of [s] starts a comment: each has a backslash before
    it. [escaped] says that a backslash precedes [s]. *)
Fixpoint no_comment_from (escaped : bool) (s : string) : bool :=
  match s with
  | EmptyString => true
  | String c s' =>
      negb (Ascii.eqb c Tex.percent && negb escaped)
      && no_comment_from (Ascii.eqb c Tex.backslash) s'
  end.

Definition no_comment (s : string) : bool := no_comment_from false s.

(** The last character of [s] is a backslash. *)
Fixpoint ends_with_backslash (s : string) : bool :=
  match s with
  | EmptyString => false
  | String c EmptyString => Ascii.eqb c Tex.backslash
  | String _ s' => ends_with_backslash s'
  end.

End Text.

(** [",".join(ks)] *)
Fixpoint join_comma (ks : list string) : string :=
  match ks with
  | [] => EmptyString
  | [k] => k
  | k :: ks' => k +:+ "," +:+ join_comma ks'
  end.

(** A key that can be written in a citation command and read back: it is
    trimmed, not empty, and holds no comma, brace or percent sign. *)
Definition citable (k : string) : Prop :=
  Text.trimmed k
  /\ k <> EmptyString
  /\ Text.comma_free k = true
  /\ Text.brace_free k = true
  /\ Text.all (Text.not_char Tex.percent) k = true.

(** What reading one more file does to the bibliography, and where a
    stored entry comes from. *)
Module BibAux.

Import Bib.

Definition step (m : gmap string bib_entry) (f : bib_file) : gmap string bib_entry :=
  match entries f with
  | Some es => add_entries (file_name f) es m
  | None => m
  end.

Definition from_files (fs : list bib_file) (k : string) (e : bib_entry) : Prop :=
  exists (f : bib_file) (es : list raw_entry) (raw : raw_entry),
    f ∈ fs /\ entries f = Some es /\ raw ∈ es
    /\ raw !! "ID" = Some k /\ e = record_of (file_name f) k raw.

End BibAux.

(** ** Inputs to run the further properties on *)

Module Samples.

Import Demo.

Definition line_break : string := String Tex.newline EmptyString.

(** Two manuscript files, the second of which cannot be read. *)
Definition manuscript : string :=
  "Transformers \citep*{bar2021, foo2020} are everywhere. % \cite{hidden}"
  +:+ line_break +:+ "They cost 100\% more \cite{bar2021}.".

Definition tex_files : list (option string) := [Some manuscript; None].

Definition raw_attention : gmap string string :=
  {[ "ID" := "bar2021"; "ENTRYTYPE" := "inproceedings";
     "title" := "{Attention} Is All You Need"; "author" := "Vaswani, Ashish";
     "year" := "2017" ]}.

Definition raw_draft : gmap string string :=
  {[ "ID" := "bar2021"; "ENTRYTYPE" := "misc"; "title" := "Attention (draft)" ]}.

(** Two bibliography files, the first of which cannot be read. *)
Definition bib_files : list Bib.bib_file :=
  [Bib.BibFile "broken.bib" None; Bib.BibFile "refs.bib" (Some [raw_draft; raw_attention])].

Definition bibliography : gmap string bib_entry := Bib.parse_bib_files bib_files.

Definition order : list string := ["bar2021"; "foo2020"].

(** The reports of the run on these files with the network of scenario 2. *)
Definition reports_run : reports :=
  {| all_citations_report :=
       [info_of bibliography "bar2021" Verified (Some vaswani_openalex);
        info_of bibliography "foo2020" MissingInBib None];
     hallucination_report :=
       [MissingIssue "foo2020" "Citation key found in TeX but missing in .bib files"] |}.

(** The reports of the run of the scenarios when the title found scores
    below 90. *)
Definition reports_mismatch : reports :=
  {| all_citations_report :=
       [info_of bib "bar2021" TitleMismatch (Some not_enough)];
     hallucination_report :=
       [TitleIssue "bar2021" attention (JStr "Attention Is Not Enough")
          (Fuzz.ratio (PyStr.lower attention) (PyStr.lower "Attention Is Not Enough"))
          "OpenAlex" "Title similarity below threshold" "Medium"] |}.

(** An answer of OpenAlex in which the name of the first author is [null]:
    the key ["display_name"] is there, so that the default of [.get] is not
    taken. *)
Definition openalex_null_author : http_outcome :=
  Response 200 (Some (obj [("results", JArr [obj [
    ("display_name", JStr attention); ("publication_year", JNum 2017);
    ("authorships",
      JArr [obj [("author", obj [("display_name", JNull)])];
            obj [("author", obj [("display_name", JStr "Ashish Vaswani")])]]);
    ("doi", JStr "https://doi.org/10.48550/arxiv.1706.03762")]])])).

Definition net_null_author : Network nat :=
  canned (fun _ => dblp_no_hit) (fun _ => openalex_null_author).

Definition null_author : candidate :=
  {| source := "OpenAlex"; title := JStr attention; year := JNum 2017;
     authors := [JNull; JStr "Ashish Vaswani"];
     url := JStr "https://doi.org/10.48550/arxiv.1706.03762" |}.

(** An answer of OpenAlex in which the title of the work is [null]. *)
Definition openalex_null_title : http_outcome :=
  Response 200 (Some (obj [("results", JArr [obj [
    ("display_name", JNull); ("publication_year", JNum 2017);
    ("authorships",
      JArr [obj [("author", obj [("display_name", JStr "Ashish Vaswani")])]]);
    ("doi", JNull)]])])).

Definition net_null_title : Network nat :=
  canned (fun _ => dblp_no_hit) (fun _ => openalex_null_title).

Definition untitled : candidate :=
  {| source := "OpenAlex"; title := JNull; year := JNum 2017;
     authors := [JStr "Ashish Vaswani"]; url := JNull |}.

(** An answer of OpenAlex with two results and a key the code does not read. *)
Definition work (t : string) : json :=
  obj [("display_name", JStr t); ("authorships", JArr [])].

Definition openalex_data : gmap string json :=
  {[ "results" := JArr [work attention; work "Another paper"];
     "meta" := obj [("count", JNum 2)] ]}.

(** The parts of an answer of DBLP with two hits. *)
Definition dblp_info : gmap string json :=
  {[ "title" := JStr "Attention is All you Need.";
     "authors" := obj [("author", JStr "Ashish Vaswani")] ]}.

Definition dblp_hits_obj : gmap string json :=
  {[ "@total" := JStr "2";
     "hit" := JArr [obj [("info", JObj dblp_info)]; obj [("info", obj [])]] ]}.

Definition dblp_result : gmap string json := {[ "hits" := JObj dblp_hits_obj ]}.

Definition dblp_data : gmap string json := {[ "result" := JObj dblp_result ]}.

End Samples.

(** * Properties *)

(** ** The providers fail soft *)

Section Providers.

Context {W : Type} {N : Network W} {L : Library}.

Lemma search_result (ep : endpoint) (t : string) (w : W) :
  search ep t w =
    (Ok (try_except (match ep with
                     | DBLP => dblp_body
                     | OpenAlex => openalex_body
                     end (http_get ep t w).1)),
     (http_get ep t w).2, [EvGet ep t]).
Proof.
  destruct ep; simpl; unfold _search_dblp, _search_openalex.
  - destruct (get_dblp t w); reflexivity.
  - destruct (get_openalex t w); reflexivity.
Qed.

(** Whatever the provider does, the search returns to its caller. *)
Lemma search_never_raises (ep : endpoint) (t : string) (w : W) :
  exists r, result_of (search ep t w) = Ok r.
Proof. rewrite search_result. eexists. reflexivity. Qed.

Lemma soft_failure_dblp (o : http_outcome) :
  soft_failure DBLP o -> try_except (dblp_body o) = None.
Proof.
  intros [ | s b Hs | data v Hv Ht ]; simpl.
  - reflexivity.
  - destruct (Z.eqb_spec s 200); [contradiction | reflexivity].
  - simpl in Hv. rewrite Hv. simpl. rewrite Ht. reflexivity.
Qed.

Lemma soft_failure_openalex (o : http_outcome) :
  soft_failure OpenAlex o -> try_except (openalex_body o) = None.
Proof.
  intros [ | s b Hs | data v Hv Ht ]; simpl.
  - reflexivity.
  - destruct (Z.eqb_spec s 200); [contradiction | reflexivity].
  - simpl in Hv. rewrite Hv. simpl. rewrite Ht. reflexivity.
Qed.

(** C7. When the request of a provider fails, or is answered with a status
    other than 200, or with an empty result set, the search of that
    provider returns [None] to its caller: it does not raise. *)
Theorem search_fails_soft (ep : endpoint) (t : string) (w : W) :
  soft_failure ep (http_get ep t w).1 ->
  result_of (search ep t w) = Ok None.
Proof.
  intros Hfail. rewrite search_result. unfold result_of. simpl.
  f_equal. destruct ep.
  - apply soft_failure_dblp, Hfail.
  - apply soft_failure_openalex, Hfail.
Qed.

End Providers.

(** ** The fallback of [verify] *)

Section Verify.

Context {W : Type} {L : Library}.

Lemma verify_unfold {N : Network W} (t : string) (w : W) :
  verify t w =
    let '(o, w1) := get_dblp t w in
    let fallback :=
      let '(o2, w2) := get_openalex t (sleep API_DELAY w1) in
      (Ok (try_except (openalex_body o2)), w2,
       [EvGet DBLP t; EvSleep API_DELAY; EvGet OpenAlex t]) in
    match try_except (dblp_body o) with
    | Some r =>
        match title_score t (title r) with
        | Ok score =>
            if Qlt_le_dec score 70 then fallback
            else (Ok (Some r), w1, [EvGet DBLP t])
        | Raise e => (Raise e, w1, [EvGet DBLP t])
        end
    | None => fallback
    end.
Proof.
  unfold verify, bind, _search_dblp, _search_openalex, time_sleep, lift, ret.
  destruct (get_dblp t w) as [o w1].
  destruct (try_except (dblp_body o)) as [r|].
  - destruct (title_score t (title r)) as [score|e]; [|reflexivity].
    destruct (Qlt_le_dec score 70); [|reflexivity].
    destruct (get_openalex t (sleep API_DELAY w1)); reflexivity.
  - destruct (get_openalex t (sleep API_DELAY w1)); reflexivity.
Qed.

Lemma search_dblp_unfold {N : Network W} (t : string) (w : W) :
  _search_dblp t w =
    (Ok (try_except (dblp_body (get_dblp t w).1)), (get_dblp t w).2, [EvGet DBLP t]).
Proof. unfold _search_dblp. destruct (get_dblp t w); reflexivity. Qed.

(** C1. When the primary provider returns a candidate whose title scores
    70 or more against the queried title, [verify] is the search of the
    primary provider alone: it returns that candidate, its only request
    goes to DBLP, and replacing the secondary provider by any other does
    not change what [verify] computes. *)
Theorem primary_hit_skips_secondary {N : Network W}
    (t : string) (w : W) (c : candidate) (s : Q) :
  result_of (_search_dblp t w) = Ok (Some c) ->
  title_score t (title c) = Ok s ->
  (70 <= s)%Q ->
  verify t w = _search_dblp t w
  /\ result_of (verify t w) = Ok (Some c)
  /\ trace_of (verify t w) = [EvGet DBLP t]
  /\ forall oa1 oa2 : string -> W -> http_outcome * W,
       verify (N := with_secondary N oa1) t w
       = verify (N := with_secondary N oa2) t w.
Proof.
  intros Hhit Hscore Hle.
  rewrite search_dblp_unfold in Hhit. unfold result_of in Hhit. simpl in Hhit.
  assert (Hc : try_except (dblp_body (get_dblp t w).1) = Some c) by congruence.
  assert (Hv : forall N' : Network W,
             @get_dblp W N' = @get_dblp W N ->
             verify (N := N') t w = _search_dblp t w).
  { intros N' HN'. rewrite verify_unfold, search_dblp_unfold. rewrite HN'.
    destruct (get_dblp t w) as [o w1]. simpl in *. rewrite Hc, Hscore.
    destruct (Qlt_le_dec s 70) as [Hlt|_]; [|reflexivity].
    exfalso. exact (Qlt_not_le _ _ Hlt Hle). }
  repeat split.
  - apply Hv. reflexivity.
  - rewrite Hv by reflexivity. rewrite search_dblp_unfold.
    unfold result_of. simpl. congruence.
  - rewrite Hv by reflexivity. rewrite search_dblp_unfold. reflexivity.
  - intros oa1 oa2. rewrite !Hv by reflexivity. reflexivity.
Qed.

End Verify.

(** ** The classification of one key *)

Section Classify.

Context {W : Type} {N : Network W} {L : Library}.

Lemma classify_missing (bib_data : gmap string bib_entry) (key : string) (w : W) :
  bib_data !! key = None ->
  classify bib_data key w =
    (Ok (info_of bib_data key MissingInBib None,
         Some (MissingIssue key "Citation key found in TeX but missing in .bib files")),
     w, []).
Proof. intros Hk. unfold classify. rewrite Hk. reflexivity. Qed.

Lemma classify_present (bib_data : gmap string bib_entry) (key : string)
    (entry : bib_entry) (w : W) :
  bib_data !! key = Some entry ->
  classify bib_data key w =
    (let? m := result_of (verify (bib_title entry) w) in
     classify_match bib_data key entry m,
     world_of (verify (bib_title entry) w),
     trace_of (verify (bib_title entry) w)).
Proof.
  intros Hk. unfold classify. rewrite Hk. unfold bind, lift, result_of, world_of, trace_of.
  destruct (verify (bib_title entry) w) as [[[m|e] w1] ev]; simpl.
  - rewrite app_nil_r. reflexivity.
  - reflexivity.
Qed.

End Classify.

(** ** The first author token *)

Module TokenFacts.

Import PyStr.

Lemma split_head_eq (sep s : string) :
  split_head sep s =
    if startswith sep s then EmptyString
    else match s with
         | EmptyString => EmptyString
         | String c s' => String c (split_head sep s')
         end.
Proof. destruct s; reflexivity. Qed.

Lemma cut_at_separator_eq (s : string) :
  cut_at_separator s =
    if startswith "," s || startswith " and " s then EmptyString
    else match s with
         | EmptyString => EmptyString
         | String c s' => String c (cut_at_separator s')
         end.
Proof. destruct s; reflexivity. Qed.

Lemma startswith_comma (c : ascii) (s : string) :
  startswith "," (String c s) = Ascii.eqb "," c.
Proof. cbn [startswith]. destruct (Ascii.eqb "," c); reflexivity. Qed.

(** A separator without comma starts the part before the first comma
    exactly when it starts the whole string. *)
Lemma startswith_split_comma (p s : string) :
  comma_free p = true ->
  startswith p (split_head "," s) = startswith p s.
Proof.
  revert s. induction p as [|a p IH]; intros s Hp.
  - reflexivity.
  - cbn [comma_free] in Hp. apply andb_true_iff in Hp as [Ha Hp].
    destruct s as [|c s].
    + reflexivity.
    + rewrite split_head_eq, startswith_comma.
      destruct (Ascii.eqb_spec "," c) as [<-|Hc].
      * cbn [startswith].
        destruct (Ascii.eqb_spec a ","); [discriminate | reflexivity].
      * cbn [startswith].
        destruct (Ascii.eqb a c); [apply IH, Hp | reflexivity].
Qed.

Lemma split_twice_cut (s : string) :
  split_head " and " (split_head "," s) = cut_at_separator s.
Proof.
  induction s as [|c s IH].
  - reflexivity.
  - rewrite (split_head_eq " and "), startswith_split_comma by reflexivity.
    rewrite cut_at_separator_eq.
    rewrite (split_head_eq ","), startswith_comma.
    destruct (Ascii.eqb "," c).
    + cbn [orb]. destruct (startswith " and " (String c s)); reflexivity.
    + cbn [orb].
      destruct (startswith " and " (String c s)); [reflexivity|].
      rewrite IH. reflexivity.
Qed.

End TokenFacts.

(** The token the code takes is the one the specification describes. *)
Lemma bib_author_first_leading_token (author : string) :
  bib_author_first author = leading_token author.
Proof.
  unfold bib_author_first, leading_token.
  rewrite TokenFacts.split_twice_cut. reflexivity.
Qed.

(** ** The outcomes of a key that has an entry *)

Lemma dblp_body_source {L : Library} (o : http_outcome) (c : candidate) :
  try_except (dblp_body o) = Some c -> source c = "DBLP".
Proof.
  intros H. unfold dblp_body in H.
  destruct o as [|st body]; [discriminate|].
  destruct (st =? 200)%Z; [|discriminate].
  destruct body as [data|]; cbn [res_bind] in H; [|discriminate].
  destruct (dblp_hits data) as [hits|]; cbn [res_bind] in H; [|discriminate].
  destruct (Py.truthy hits); [|discriminate].
  repeat match type of H with
    | try_except (res_bind ?r _) = _ => destruct r; cbn [res_bind] in H; [|discriminate]
    end.
  cbn in H. injection H as <-. reflexivity.
Qed.

Lemma openalex_body_source (o : http_outcome) (c : candidate) :
  try_except (openalex_body o) = Some c -> source c = "OpenAlex".
Proof.
  intros H. unfold openalex_body in H.
  destruct o as [|st body]; [discriminate|].
  destruct (st =? 200)%Z; [|discriminate].
  destruct body as [data|]; cbn [res_bind] in H; [|discriminate].
  destruct (openalex_results data) as [results|]; cbn [res_bind] in H; [|discriminate].
  destruct (Py.truthy results); [|discriminate].
  repeat match type of H with
    | try_except (res_bind ?r _) = _ => destruct r; cbn [res_bind] in H; [|discriminate]
    end.
  cbn in H. injection H as <-. reflexivity.
Qed.

Section Outcomes.

Context {W : Type} {N : Network W} {L : Library}.

(** What [verify] returns, by the answers of the two providers. *)
Lemma verify_result (t : string) (w : W) :
  result_of (verify t w) =
    match result_of (_search_dblp t w) with
    | Ok (Some r) =>
        match title_score t (title r) with
        | Ok score =>
            if Qlt_le_dec score 70
            then result_of (_search_openalex t (fallback_world t w))
            else Ok (Some r)
        | Raise e => Raise e
        end
    | Ok None => result_of (_search_openalex t (fallback_world t w))
    | Raise e => Raise e
    end.
Proof.
  rewrite verify_unfold. unfold fallback_world.
  rewrite search_dblp_unfold. unfold _search_openalex, result_of, world_of.
  destruct (get_dblp t w) as [o w1]. cbn [fst snd].
  destruct (get_openalex t (sleep API_DELAY w1)) as [o2 w2].
  destruct (try_except (dblp_body o)) as [r|]; [|reflexivity].
  destruct (title_score t (title r)) as [score|e]; [|reflexivity].
  destruct (Qlt_le_dec score 70); reflexivity.
Qed.




Lemma author_match_some (token : string) (names : list string) :
  some_name_matches token names ->
  author_match token (JStr <$> names) = Ok true.
Proof.
  unfold some_name_matches.
  induction names as [|n names IH]; intros He.
  - inversion He.
  - cbn [fmap list_fmap author_match Py.lower res_bind].
    destruct (Qlt_le_dec 80 (partial_ratio (PyStr.lower token) (PyStr.lower n)))
      as [_|Hle]; [reflexivity|].
    apply IH. inversion He as [? ? Hn|? ? Hrest]; subst; [|exact Hrest].
    exfalso. exact (Qlt_not_le _ _ Hn Hle).
Qed.

Lemma author_match_none (token : string) (names : list string) :
  ~ some_name_matches token names ->
  author_match token (JStr <$> names) = Ok false.
Proof.
  unfold some_name_matches.
  induction names as [|n names IH]; intros He.
  - reflexivity.
  - cbn [fmap list_fmap author_match Py.lower res_bind].
    destruct (Qlt_le_dec 80 (partial_ratio (PyStr.lower token) (PyStr.lower n)))
      as [Hlt|_].
    + exfalso. apply He. left. exact Hlt.
    + apply IH. intros Hrest. apply He. right. exact Hrest.
Qed.

(** The author check on a list of names. When [verify] returns a candidate
    whose title scores 90 or more and whose author list holds strings only:
    the key is classified Verified if the first author token of the
    recorded entry has a partial ratio above 80 against some name of the
    list, at any position, and AuthorMismatch with risk Medium otherwise.
    The token the code takes is the recorded author string cut at its first
    comma or [" and "] and stripped. A name that is not a string makes
    [fa.lower()] raise: see the section on the answers the run does not
    survive. *)
Theorem author_check (bib_data : gmap string bib_entry) (key : string)
    (entry : bib_entry) (w : W) (m : candidate) (s : Q) (names : list string) :
  bib_data !! key = Some entry ->
  result_of (verify (bib_title entry) w) = Ok (Some m) ->
  title_score (bib_title entry) (title m) = Ok s ->
  (90 <= s)%Q ->
  authors m = JStr <$> names ->
  bib_author_first (bib_author entry) = leading_token (bib_author entry)
  /\ (some_name_matches (leading_token (bib_author entry)) names ->
      result_of (classify bib_data key w) =
        Ok (info_of bib_data key Verified (Some m), None))
  /\ (~ some_name_matches (leading_token (bib_author entry)) names ->
      result_of (classify bib_data key w) =
        Ok (info_of bib_data key AuthorMismatch (Some m),
            Some (AuthorIssue key (bib_author entry) (authors m)
                    "First author mismatch" "Medium"))).
Proof.
  intros Hk Hv Hs Hge Ha.
  split; [apply bib_author_first_leading_token|].
  assert (Hc : result_of (classify bib_data key w) =
               let? matched := author_match (leading_token (bib_author entry)) (authors m) in
               if negb matched then
                 Ok (info_of bib_data key AuthorMismatch (Some m),
                     Some (AuthorIssue key (bib_author entry) (authors m)
                             "First author mismatch" "Medium"))
               else Ok (info_of bib_data key Verified (Some m), None)).
  { rewrite (classify_present _ _ _ _ Hk). unfold result_of at 1. cbn [fst].
    rewrite Hv. cbn [res_bind]. unfold classify_match. rewrite Hs. cbn [res_bind].
    rewrite bib_author_first_leading_token.
    destruct (Qlt_le_dec s SIMILARITY_THRESHOLD) as [Hlt|_]; [|reflexivity].
    exfalso. exact (Qlt_not_le _ _ Hlt Hge). }
  rewrite Hc, Ha. split; intros Hm.
  - rewrite (author_match_some _ _ Hm). reflexivity.
  - rewrite (author_match_none _ _ Hm). reflexivity.
Qed.

Lemma not_found_iff_verify_none (bib_data : gmap string bib_entry) (key : string)
    (entry : bib_entry) (w : W) :
  bib_data !! key = Some entry ->
  not_found_high bib_data key w <-> result_of (verify (bib_title entry) w) = Ok None.
Proof.
  intros Hk. unfold not_found_high.
  rewrite (classify_present _ _ _ _ Hk). unfold result_of at 1. cbn [fst].
  destruct (result_of (verify (bib_title entry) w)) as [[m|]|e]; cbn [res_bind].
  - split; [|discriminate]. intros (o & Ho & Hst & _). exfalso.
    unfold classify_match in Ho.
    destruct (title_score (bib_title entry) (title m)); cbn [res_bind] in Ho;
      [|discriminate].
    destruct (Qlt_le_dec _ _); [injection Ho as <-; discriminate|].
    destruct (author_match _ _) as [[|]|]; cbn [res_bind negb] in Ho;
      try discriminate; injection Ho as <-; discriminate.
  - split; [reflexivity|]. intros _. eexists. repeat split.
  - split; [|discriminate]. intros (o & Ho & _). discriminate.
Qed.

Lemma verify_none_iff (t : string) (w : W) :
  result_of (verify t w) = Ok None <-> no_candidate_kept t w.
Proof.
  rewrite verify_result. unfold no_candidate_kept.
  destruct (result_of (_search_dblp t w)) as [[r|]|e].
  - destruct (title_score t (title r)) as [score|e] eqn:Hs.
    + destruct (Qlt_le_dec score 70) as [Hlt|Hge].
      * split.
        -- intros H. split; [right; eauto|exact H].
        -- intros [_ H]. exact H.
      * split; [discriminate|].
        intros [[H|(c & s & [= <-] & Hs' & Hlt)] _]; [discriminate|].
        rewrite Hs in Hs'. injection Hs' as <-.
        exfalso. exact (Qlt_not_le _ _ Hlt Hge).
    + split; [discriminate|].
      intros [[H|(c & s & [= <-] & Hs' & _)] _]; [discriminate|].
      rewrite Hs in Hs'. discriminate.
  - split.
    + intros H. split; [left; reflexivity|exact H].
    + intros [_ H]. exact H.
  - split; [discriminate|]. intros [[H|(c & s & H & _)] _]; discriminate.
Qed.

(** C2, as amended. A key that has an entry is classified NotFound with
    risk High exactly when [verify] keeps no candidate for the title of
    the entry: the primary provider yielded none or one whose title scores
    below 70, and the secondary provider, asked then, yielded none. *)
Theorem not_found_iff_no_candidate_kept (bib_data : gmap string bib_entry)
    (key : string) (entry : bib_entry) (w : W) :
  bib_data !! key = Some entry ->
  not_found_high bib_data key w <-> no_candidate_kept (bib_title entry) w.
Proof.
  intros Hk. rewrite (not_found_iff_verify_none _ _ _ _ Hk).
  apply verify_none_iff.
Qed.

End Outcomes.

(** ** The loop *)

Lemma result_of_bind {W A B : Type} (m : M W A) (k : A -> M W B) (w : W) :
  result_of (bind m k w) =
    match result_of (m w) with
    | Ok a => result_of (k a (world_of (m w)))
    | Raise e => Raise e
    end.
Proof.
  unfold bind, result_of, world_of.
  destruct (m w) as [[[a|e] w1] ev]; cbn [fst snd]; [|reflexivity].
  destruct (k a w1) as [[r w2] ev2]. reflexivity.
Qed.

Lemma fold_append_outcome (os : list (citation_info * option issue)) (r : reports) :
  fold_left append_outcome os r =
    {| all_citations_report := all_citations_report r ++ os.*1;
       hallucination_report := hallucination_report r ++ issues_of os |}.
Proof.
  revert r. induction os as [|o os IH]; intros r.
  - cbn. rewrite !app_nil_r. destruct r; reflexivity.
  - cbn [fold_left]. rewrite IH. unfold append_outcome, issues_of. cbn.
    rewrite <- !app_assoc. reflexivity.
Qed.

Section Loop.

Context {W : Type} {N : Network W} {L : Library}.

Lemma classify_outcome (bib_data : gmap string bib_entry) (key : string) (w : W)
    (o : citation_info * option issue) :
  result_of (classify bib_data key w) = Ok o -> outcome_for key o.
Proof.
  destruct (bib_data !! key) as [entry|] eqn:Hk.
  - rewrite (classify_present _ _ _ _ Hk). unfold result_of at 1. cbn [fst].
    destruct (result_of (verify (bib_title entry) w)) as [[m|]|e];
      cbn [res_bind]; [| |discriminate].
    + unfold classify_match.
      destruct (title_score (bib_title entry) (title m)); cbn [res_bind];
        [|discriminate].
      destruct (Qlt_le_dec _ _); [intros [= <-]; repeat split|].
      destruct (author_match _ _) as [[|]|]; cbn [res_bind negb];
        try discriminate; intros [= <-]; repeat split.
    + intros [= <-]. repeat split.
  - rewrite (classify_missing _ _ _ Hk). intros [= <-]. repeat split.
Qed.

(** A loop that completes has appended one outcome per key, in order. *)
Lemma loop_outcomes (bib_data : gmap string bib_entry) (keys : list string)
    (r r' : reports) (w : W) :
  result_of (verification_loop bib_data keys r w) = Ok r' ->
  exists os : list (citation_info * option issue),
    Forall2 (classified bib_data) keys os /\ r' = fold_left append_outcome os r.
Proof.
  revert r w. induction keys as [|key keys IH]; intros r w.
  - intros [= <-]. exists []. split; [constructor|reflexivity].
  - cbn [verification_loop]. rewrite result_of_bind.
    destruct (result_of (classify bib_data key w)) as [o|e] eqn:Ho; [|discriminate].
    intros Hr. destruct (IH _ _ Hr) as (os & Hos & ->).
    exists (o :: os). split; [|reflexivity].
    constructor; [exists w; exact Ho|exact Hos].
Qed.

Lemma main_outcomes (tex_keys : list string) (bib_data : gmap string bib_entry)
    (w : W) (r : reports) :
  result_of (main tex_keys bib_data w) = Ok (Some r) ->
  exists os : list (citation_info * option issue),
    Forall2 (classified bib_data) tex_keys os
    /\ r = Reports os.*1 (issues_of os).
Proof.
  unfold main. destruct tex_keys as [|k ks]; [discriminate|].
  destruct (bool_decide (bib_data = ∅)); [discriminate|].
  rewrite result_of_bind.
  destruct (result_of (verification_loop bib_data (k :: ks) (Reports [] []) w))
    as [r'|e] eqn:Hloop; [|discriminate].
  intros [= ->].
  destruct (loop_outcomes _ _ _ _ _ Hloop) as (os & Hos & ->).
  exists os. split; [exact Hos|]. rewrite fold_append_outcome. reflexivity.
Qed.


Lemma issues_of_elem (os : list (citation_info * option issue)) (i : issue) :
  i ∈ issues_of os <-> exists o, o ∈ os /\ o.2 = Some i.
Proof.
  unfold issues_of. rewrite list_elem_of_bind. split.
  - intros (o & Hi & Ho). exists o. split; [exact Ho|].
    destruct (o.2); [apply list_elem_of_singleton in Hi as ->; reflexivity|inversion Hi].
  - intros (o & Ho & Hi). exists o. split; [|exact Ho]. rewrite Hi. left.
Qed.





Lemma outcomes_keys (keys : list string) (os : list (citation_info * option issue)) :
  Forall2 outcome_for keys os ->
  ci_key <$> os.*1 = keys
  /\ issue_key <$> issues_of os
     = ci_key <$> filter (fun ci => not_verified ci = true) os.*1.
Proof.
  induction 1 as [|key o keys os [Hkey Ho] _ [IH1 IH2]].
  - split; reflexivity.
  - split.
    + cbn. rewrite Hkey, IH1. reflexivity.
    + unfold issues_of in *. cbn [mbind list_bind fmap list_fmap].
      rewrite fmap_app, IH2. rewrite filter_cons.
      destruct o as [ci [i|]]; cbn [fst snd] in *.
      * destruct Ho as [Hi Hnv]. rewrite decide_True by exact Hnv.
        cbn. rewrite Hi, Hkey. reflexivity.
      * rewrite decide_False by (rewrite Ho; discriminate). reflexivity.
Qed.

(** The reports of a run that reaches them: the full report has one
    outcome per key of the scan, in the order of the loop, and the issues
    report has an entry for a key exactly when the outcome of that key is
    not Verified. For a run that does not reach them, see the section on
    the answers the run does not survive. *)
Theorem one_outcome_per_key (tex_keys : list string)
    (bib_data : gmap string bib_entry) (w : W) (r : reports) :
  result_of (main tex_keys bib_data w) = Ok (Some r) ->
  ci_key <$> all_citations_report r = tex_keys
  /\ issues_match_outcomes r
  /\ forall key : string,
       key ∈ (issue_key <$> hallucination_report r) <->
       exists ci : citation_info,
         ci ∈ all_citations_report r /\ ci_key ci = key /\ ci_status ci ≠ Verified.
Proof.
  intros Hr. destruct (main_outcomes _ _ _ _ Hr) as (os & Hos & ->).
  cbn [all_citations_report hallucination_report].
  assert (Hfor : Forall2 outcome_for tex_keys os).
  { eapply Forall2_impl; [exact Hos|].
    intros k o [w' Ho]. exact (classify_outcome _ _ _ _ Ho). }
  destruct (outcomes_keys _ _ Hfor) as [H1 H2].
  assert (Hm : issues_match_outcomes (Reports os.*1 (issues_of os))) by exact H2.
  split; [exact H1|]. split; [exact Hm|].
  intros key. unfold issues_match_outcomes in Hm.
  cbn [all_citations_report hallucination_report] in Hm. rewrite Hm.
  rewrite list_elem_of_fmap. split.
  - intros (ci & -> & Hci). apply list_elem_of_filter in Hci as [Hnv Hin].
    exists ci. repeat split; [exact Hin|].
    unfold not_verified in Hnv. intros Hst.
    rewrite bool_decide_eq_true_2 in Hnv by exact Hst. discriminate.
  - intros (ci & Hin & <- & Hst). exists ci. split; [reflexivity|].
    apply list_elem_of_filter. split; [|exact Hin].
    unfold not_verified. rewrite bool_decide_eq_false_2 by exact Hst. reflexivity.
Qed.

End Loop.

(** ** Runs that complete *)

Section Completion.

Context {W : Type} {N : Network W} {L : Library}.

Lemma title_score_str (t : string) (v : json) :
  is_str v -> exists s : Q, title_score t v = Ok s.
Proof. intros [s ->]. eexists. reflexivity. Qed.

Lemma author_match_str (token : string) (l : list json) :
  Forall is_str l -> exists b : bool, author_match token l = Ok b.
Proof.
  induction 1 as [|v l [s ->] _ [b IH]].
  - exists false. reflexivity.
  - cbn [author_match Py.lower res_bind].
    destruct (Qlt_le_dec _ _); [exists true; reflexivity|exists b; exact IH].
Qed.

Lemma verify_completes (t : string) (w : W) :
  providers_well_formed ->
  exists m : option candidate,
    result_of (verify t w) = Ok m
    /\ match m with Some c => well_formed c | None => True end.
Proof.
  intros Hwf. rewrite verify_result.
  pose proof (Hwf DBLP t w) as Hd. cbn [search] in Hd.
  pose proof (Hwf OpenAlex t (fallback_world t w)) as Ho. cbn [search] in Ho.
  assert (Hfb : exists m : option candidate,
             result_of (_search_openalex t (fallback_world t w)) = Ok m
             /\ match m with Some c => well_formed c | None => True end).
  { destruct (search_never_raises OpenAlex t (fallback_world t w)) as [m Hm].
    cbn [search] in Hm. exists m. split; [exact Hm|].
    destruct m as [c|]; [apply Ho, Hm|exact I]. }
  destruct (search_never_raises DBLP t w) as [[r|] Hr]; cbn [search] in Hr;
    rewrite Hr; [|exact Hfb].
  destruct (title_score_str t (title r)) as [s Hs]; [apply (Hd r Hr)|].
  rewrite Hs. destruct (Qlt_le_dec s 70); [exact Hfb|].
  exists (Some r). split; [reflexivity|apply (Hd r Hr)].
Qed.

Lemma classify_completes (bib_data : gmap string bib_entry) (key : string) (w : W) :
  providers_well_formed ->
  exists o : citation_info * option issue,
    result_of (classify bib_data key w) = Ok o.
Proof.
  intros Hwf. destruct (bib_data !! key) as [entry|] eqn:Hk.
  - rewrite (classify_present _ _ _ _ Hk). unfold result_of at 1. cbn [fst].
    destruct (verify_completes (bib_title entry) w Hwf) as ([m|] & -> & Hm);
      cbn [res_bind]; [|eexists; reflexivity].
    unfold classify_match. destruct Hm as [Ht Ha].
    destruct (title_score_str (bib_title entry) _ Ht) as [s ->]. cbn [res_bind].
    destruct (Qlt_le_dec _ _); [eexists; reflexivity|].
    destruct (author_match_str (bib_author_first (bib_author entry)) _ Ha) as [b ->].
    cbn [res_bind]. destruct (negb b); eexists; reflexivity.
  - rewrite (classify_missing _ _ _ Hk). eexists. reflexivity.
Qed.

(** With providers that return well-formed candidates the run raises
    nothing: it stops early or reaches its reports. *)
Lemma main_completes (tex_keys : list string) (bib_data : gmap string bib_entry) (w : W) :
  providers_well_formed ->
  exists r : option reports, result_of (main tex_keys bib_data w) = Ok r.
Proof.
  intros Hwf. unfold main. destruct tex_keys as [|k ks]; [eexists; reflexivity|].
  destruct (bool_decide (bib_data = ∅)); [eexists; reflexivity|].
  rewrite result_of_bind.
  assert (Hloop : forall keys r w', exists r',
             result_of (verification_loop bib_data keys r w') = Ok r').
  { induction keys as [|key keys IH]; intros r w'.
    - eexists. reflexivity.
    - cbn [verification_loop]. rewrite result_of_bind.
      destruct (classify_completes bib_data key w' Hwf) as [o ->]. apply IH. }
  destruct (Hloop (k :: ks) (Reports [] []) w) as [r' ->].
  eexists. reflexivity.
Qed.

End Completion.

(** ** Runs with fixed answers *)

Lemma comprehension_perm {A B : Type} (g : A -> res B) (l1 l2 : list A) :
  (forall a e, g a = Raise e -> e = AttributeError) ->
  Permutation l1 l2 ->
  match Py.comprehension g l1, Py.comprehension g l2 with
  | Ok o1, Ok o2 => Permutation o1 o2
  | Raise e1, Raise e2 => e1 = e2
  | _, _ => False
  end.
Proof.
  intros Hg. induction 1 as [|x l l' _ IH|x y l|l l' l'' _ IH1 _ IH2].
  - constructor.
  - cbn [Py.comprehension]. destruct (g x); cbn [res_bind]; [|reflexivity].
    destruct (Py.comprehension g l), (Py.comprehension g l'); cbn [res_bind];
      try contradiction; [constructor; exact IH|exact IH].
  - cbn [Py.comprehension].
    destruct (g x) as [bx|ex] eqn:Hx, (g y) as [by'|ey] eqn:Hy; cbn [res_bind];
      try reflexivity.
    + destruct (Py.comprehension g l); cbn [res_bind]; [apply perm_swap|reflexivity].
    + rewrite (Hg _ _ Hx), (Hg _ _ Hy). reflexivity.
  - destruct (Py.comprehension g l), (Py.comprehension g l'),
      (Py.comprehension g l''); try contradiction.
    + etransitivity; eassumption.
    + congruence.
Qed.

Section FixedAnswers.

Context {W : Type} {N : Network W} {L : Library}.
Variable f : endpoint -> string -> http_outcome.
Hypothesis Hfixed : answers_fixed N f.

Lemma search_fixed (ep : endpoint) (t : string) (w w' : W) :
  result_of (search ep t w) = result_of (search ep t w').
Proof.
  rewrite !search_result. unfold result_of. cbn [fst].
  rewrite !Hfixed. reflexivity.
Qed.

Lemma verify_fixed (t : string) (w w' : W) :
  result_of (verify t w) = result_of (verify t w').
Proof.
  rewrite !verify_result.
  rewrite (search_fixed DBLP t w w' : result_of (_search_dblp t w) = _).
  rewrite (search_fixed OpenAlex t (fallback_world t w) (fallback_world t w')
            : result_of (_search_openalex t _) = _).
  reflexivity.
Qed.

Lemma classify_fixed (bib_data : gmap string bib_entry) (key : string) (w w' : W) :
  result_of (classify bib_data key w) = result_of (classify bib_data key w').
Proof.
  destruct (bib_data !! key) as [entry|] eqn:Hk.
  - rewrite !(classify_present _ _ _ _ Hk). unfold result_of at 1 3. cbn [fst].
    rewrite (verify_fixed _ w w'). reflexivity.
  - rewrite !(classify_missing _ _ _ Hk). reflexivity.
Qed.

Lemma loop_fixed (bib_data : gmap string bib_entry) (keys : list string)
    (r : reports) (w w0 : W) :
  result_of (verification_loop bib_data keys r w) =
    let? os := Py.comprehension (fun k => result_of (classify bib_data k w0)) keys in
    Ok (fold_left append_outcome os r).
Proof.
  revert r w. induction keys as [|key keys IH]; intros r w.
  - reflexivity.
  - cbn [verification_loop Py.comprehension]. rewrite result_of_bind.
    rewrite (classify_fixed bib_data key w w0).
    destruct (result_of (classify bib_data key w0)) as [o|e]; cbn [res_bind];
      [|reflexivity].
    rewrite IH. destruct (Py.comprehension _ keys); reflexivity.
Qed.

Lemma main_fixed (tex_keys : list string) (bib_data : gmap string bib_entry)
    (w w0 : W) :
  result_of (main tex_keys bib_data w) =
    match tex_keys with
    | [] => Ok None
    | _ :: _ =>
        if bool_decide (bib_data = ∅) then Ok None
        else
          let? os := Py.comprehension
                       (fun k => result_of (classify bib_data k w0)) tex_keys in
          Ok (Some (Reports os.*1 (issues_of os)))
    end.
Proof.
  unfold main. destruct tex_keys as [|k ks]; [reflexivity|].
  destruct (bool_decide (bib_data = ∅)); [reflexivity|].
  rewrite result_of_bind, (loop_fixed _ _ _ _ w0).
  destruct (Py.comprehension _ (k :: ks)) as [os|e]; cbn [res_bind]; [|reflexivity].
  rewrite fold_append_outcome. reflexivity.
Qed.

End FixedAnswers.

(** The only exception a turn of the loop lets through is the
    [AttributeError] of [.lower()] on a value that is no string. *)
Lemma lower_raises (v : json) (e : exn) : Py.lower v = Raise e -> e = AttributeError.
Proof. destruct v; cbn; congruence. Qed.

Lemma title_score_raises (t : string) (v : json) (e : exn) :
  title_score t v = Raise e -> e = AttributeError.
Proof.
  unfold title_score. destruct (Py.lower v) eqn:Hl; cbn [res_bind]; [discriminate|].
  intros [= <-]. exact (lower_raises _ _ Hl).
Qed.

Lemma author_match_raises {L : Library} (token : string) (l : list json) (e : exn) :
  author_match token l = Raise e -> e = AttributeError.
Proof.
  induction l as [|v l IH]; [discriminate|]. cbn [author_match].
  destruct (Py.lower v) eqn:Hl; cbn [res_bind].
  - destruct (Qlt_le_dec _ _); [discriminate|exact IH].
  - intros [= <-]. exact (lower_raises _ _ Hl).
Qed.

Lemma classify_raises {W : Type} {N : Network W} {L : Library}
    (bib_data : gmap string bib_entry) (key : string) (w : W) (e : exn) :
  result_of (classify bib_data key w) = Raise e -> e = AttributeError.
Proof.
  destruct (bib_data !! key) as [entry|] eqn:Hk.
  - rewrite (classify_present _ _ _ _ Hk). unfold result_of at 1. cbn [fst].
    rewrite verify_result.
    pose proof (search_never_raises DBLP (bib_title entry) w) as [d Hd].
    pose proof (search_never_raises OpenAlex (bib_title entry)
                  (fallback_world (bib_title entry) w)) as [o Ho].
    cbn [search] in Hd, Ho. rewrite Hd, Ho.
    assert (Hm : forall m, classify_match bib_data key entry m = Raise e ->
                           e = AttributeError).
    { intros [m|]; [|discriminate]. unfold classify_match.
      destruct (title_score _ (title m)) eqn:Hs; cbn [res_bind].
      - destruct (Qlt_le_dec _ _); [discriminate|].
        destruct (author_match _ _) as [[|]|] eqn:Ha; cbn [res_bind negb];
          try discriminate.
        intros [= <-]. exact (author_match_raises _ _ _ Ha).
      - intros [= <-]. exact (title_score_raises _ _ _ Hs). }
    destruct d as [r|]; [|apply Hm].
    destruct (title_score _ (title r)) eqn:Hs.
    + destruct (Qlt_le_dec _ _); apply Hm.
    + cbn [res_bind]. intros [= <-]. exact (title_score_raises _ _ _ Hs).
  - rewrite (classify_missing _ _ _ Hk). discriminate.
Qed.

(** C9. When the answers of the providers are fixed functions of the
    queried title, two runs of the pipeline on the same bibliography and on
    the same set of keys, met in any two orders and started in any two
    states of the world, produce the same outcomes: reports that are
    permutations of each other, and equal results when the keys are met in
    the same order. *)
Theorem rerun_same_outcomes {W : Type} {N : Network W} {L : Library}
    (f : endpoint -> string -> http_outcome)
    (bib_data : gmap string bib_entry) (keys1 keys2 : list string) (w1 w2 : W) :
  answers_fixed N f ->
  Permutation keys1 keys2 ->
  same_reports (result_of (main keys1 bib_data w1)) (result_of (main keys2 bib_data w2))
  /\ (keys1 = keys2 ->
      result_of (main keys1 bib_data w1) = result_of (main keys2 bib_data w2)).
Proof.
  intros Hf Hp.
  rewrite (main_fixed f Hf keys1 bib_data w1 w1), (main_fixed f Hf keys2 bib_data w2 w1).
  split; [|intros ->; reflexivity].
  destruct keys1 as [|k1 ks1].
  { apply Permutation_nil in Hp as ->. exact I. }
  destruct keys2 as [|k2 ks2].
  { symmetry in Hp. apply Permutation_nil in Hp. discriminate. }
  destruct (bool_decide (bib_data = ∅)); [exact I|].
  pose proof (comprehension_perm (fun k => result_of (classify bib_data k w1))
                (k1 :: ks1) (k2 :: ks2)
                (fun k e => classify_raises bib_data k w1 e) Hp) as Hc.
  destruct (Py.comprehension _ (k1 :: ks1)) as [os1|e1],
           (Py.comprehension _ (k2 :: ks2)) as [os2|e2];
    cbn [res_bind same_reports all_citations_report hallucination_report];
    try contradiction; [|exact Hc].
  split.
  - apply Permutation_map, Hc.
  - unfold issues_of. rewrite Hc. reflexivity.
Qed.

(** ** The similarity score *)

Module FuzzFacts.

Import Fuzz.

Lemma lcs_nil_r (xs : list ascii) : lcs xs [] = O.
Proof. destruct xs; reflexivity. Qed.

Lemma lcs_cons (x y : ascii) (xs ys : list ascii) :
  lcs (x :: xs) (y :: ys) =
    if Ascii.eqb x y then S (lcs xs ys)
    else Nat.max (lcs xs (y :: ys)) (lcs (x :: xs) ys).
Proof. reflexivity. Qed.

Lemma hd_suffixes (g : list ascii -> nat) (ys : list ascii) :
  hd O (g <$> suffixes ys) = g ys.
Proof. destruct ys; reflexivity. Qed.

Lemma lcs_row_suffixes (x : ascii) (xs ys : list ascii) :
  lcs_row x ys (lcs xs <$> suffixes ys) = lcs (x :: xs) <$> suffixes ys.
Proof.
  induction ys as [|y ys IH].
  - reflexivity.
  - cbn [suffixes fmap list_fmap lcs_row].
    change (list_fmap _ _ (lcs xs) (suffixes ys)) with (lcs xs <$> suffixes ys).
    rewrite IH, !hd_suffixes, lcs_cons. reflexivity.
Qed.

Lemma lcs_table_suffixes (xs ys : list ascii) :
  lcs_table xs ys = lcs xs <$> suffixes ys.
Proof.
  unfold lcs_table. induction xs as [|x xs IH].
  - cbn [fold_right]. induction ys as [|y ys IHys]; [reflexivity|].
    cbn [length repeat suffixes fmap list_fmap] in *. rewrite IHys. reflexivity.
  - cbn [fold_right]. rewrite IH. apply lcs_row_suffixes.
Qed.

(** The table computes the length the recurrence defines. *)
Lemma lcs_seq_similarity_lcs (xs ys : list ascii) :
  lcs_seq_similarity xs ys = lcs xs ys.
Proof. unfold lcs_seq_similarity. rewrite lcs_table_suffixes. apply hd_suffixes. Qed.

Lemma lcs_sym (xs ys : list ascii) : lcs xs ys = lcs ys xs.
Proof.
  revert ys. induction xs as [|x xs IHx]; intros ys.
  - rewrite lcs_nil_r. reflexivity.
  - induction ys as [|y ys IHy].
    + reflexivity.
    + rewrite !lcs_cons, (IHx ys), (IHx (y :: ys)), IHy.
      rewrite (Ascii.eqb_sym y x), Nat.max_comm. reflexivity.
Qed.

Lemma indel_distance_sym (s1 s2 : string) :
  indel_distance s1 s2 = indel_distance s2 s1.
Proof.
  unfold indel_distance. rewrite !lcs_seq_similarity_lcs.
  rewrite (lcs_sym (PyStr.chars s1)). lia.
Qed.

Lemma ratio_sym (s1 s2 : string) : ratio s1 s2 = ratio s2 s1.
Proof.
  unfold ratio. rewrite (indel_distance_sym s1 s2).
  rewrite (Z.add_comm (Z.of_nat (String.length s1))). reflexivity.
Qed.

End FuzzFacts.

(** C8. The title similarity score, [fuzz.ratio] of the two titles in lower
    case, is symmetric. *)
Theorem score_symmetric (a b : string) :
  Fuzz.ratio (PyStr.lower a) (PyStr.lower b) = Fuzz.ratio (PyStr.lower b) (PyStr.lower a)
  /\ title_score a (JStr b) = title_score b (JStr a).
Proof.
  split.
  - apply FuzzFacts.ratio_sym.
  - unfold title_score. cbn [Py.lower res_bind].
    rewrite FuzzFacts.ratio_sym. reflexivity.
Qed.

(** The scores of the titles of the scenarios: equal up to case, the titles
    score 100; with the word "NOT" added the score is 5000/54, about 92.6. *)
Example ratio_attention :
  (Fuzz.ratio (PyStr.lower "Attention Is All You Need")
              (PyStr.lower "attention is all you need") == 100)%Q.
Proof. vm_compute. reflexivity. Qed.

Example ratio_attention_not :
  (Fuzz.ratio (PyStr.lower "Attention Is All You Need")
              (PyStr.lower "Attention Is NOT All You Need") == 5000 # 54)%Q.
Proof. vm_compute. reflexivity. Qed.

Example bib_author_first_vaswani :
  bib_author_first "Vaswani, Ashish and Shazeer, Noam" = "Vaswani"
  /\ bib_author_first " Ashish Vaswani and Noam Shazeer" = "Ashish Vaswani".
Proof. split; reflexivity. Qed.

(** * Further properties of the code *)

(** ** The range of the similarity score *)

Module FuzzBounds.

Import Fuzz.

Lemma lcs_le_l (xs ys : list ascii) : (lcs xs ys <= length xs)%nat.
Proof.
  revert ys. induction xs as [|x xs IHx]; intros ys.
  - cbn. lia.
  - induction ys as [|y ys IHy].
    + cbn. lia.
    + rewrite FuzzFacts.lcs_cons. destruct (Ascii.eqb x y).
      * specialize (IHx ys). cbn [length]. lia.
      * specialize (IHx (y :: ys)). cbn [length] in *. lia.
Qed.

Lemma lcs_le_r (xs ys : list ascii) : (lcs xs ys <= length ys)%nat.
Proof. rewrite FuzzFacts.lcs_sym. apply lcs_le_l. Qed.

Lemma lcs_refl (xs : list ascii) : lcs xs xs = length xs.
Proof.
  induction xs as [|x xs IH]; [reflexivity|].
  rewrite FuzzFacts.lcs_cons, Ascii.eqb_refl, IH. reflexivity.
Qed.

Lemma lcs_full (xs ys : list ascii) :
  lcs xs ys = length xs -> length xs = length ys -> xs = ys.
Proof.
  revert ys. induction xs as [|x xs IH]; intros [|y ys] Hl Hlen; try discriminate.
  - reflexivity.
  - rewrite FuzzFacts.lcs_cons in Hl. cbn [length] in *.
    destruct (Ascii.eqb_spec x y) as [->|Hxy].
    + f_equal. apply IH; lia.
    + pose proof (lcs_le_l xs (y :: ys)). pose proof (lcs_le_r (x :: xs) ys). lia.
Qed.

Lemma length_chars (s : string) : length (PyStr.chars s) = String.length s.
Proof. induction s as [|c s IH]; [reflexivity|]. cbn. rewrite <- IH. reflexivity. Qed.

Lemma chars_inj (s1 s2 : string) : PyStr.chars s1 = PyStr.chars s2 -> s1 = s2.
Proof.
  intros H. rewrite <- (string_of_list_ascii_of_string s1),
    <- (string_of_list_ascii_of_string s2).
  unfold PyStr.chars in H. rewrite H. reflexivity.
Qed.

Lemma indel_distance_bounds (s1 s2 : string) :
  (0 <= indel_distance s1 s2
   <= Z.of_nat (String.length s1) + Z.of_nat (String.length s2))%Z.
Proof.
  unfold indel_distance. rewrite FuzzFacts.lcs_seq_similarity_lcs.
  pose proof (lcs_le_l (PyStr.chars s1) (PyStr.chars s2)).
  pose proof (lcs_le_r (PyStr.chars s1) (PyStr.chars s2)).
  rewrite !length_chars in *. lia.
Qed.

Lemma indel_distance_0 (s1 s2 : string) :
  indel_distance s1 s2 = 0%Z <-> s1 = s2.
Proof.
  unfold indel_distance. rewrite FuzzFacts.lcs_seq_similarity_lcs. split.
  - intros H.
    pose proof (lcs_le_l (PyStr.chars s1) (PyStr.chars s2)).
    pose proof (lcs_le_r (PyStr.chars s1) (PyStr.chars s2)).
    rewrite !length_chars in *.
    apply chars_inj, lcs_full; rewrite !length_chars; lia.
  - intros ->. rewrite lcs_refl, length_chars. lia.
Qed.

(** The score as a fraction, when the two strings are not both empty. *)
Lemma ratio_fraction (s1 s2 : string) (p : positive) :
  (Z.of_nat (String.length s1) + Z.of_nat (String.length s2))%Z = Z.pos p ->
  (ratio s1 s2 == 100 * (Z.pos p - indel_distance s1 s2) # p)%Q.
Proof.
  intros Hp. unfold ratio. rewrite Hp. cbn [Z.eqb].
  unfold Qeq, Qmult, Qminus, Qplus, Qopp, Qdiv, Qinv, inject_Z.
  cbn [Qnum Qden]. destruct (indel_distance s1 s2); cbn; lia.
Qed.

Lemma ratio_100 (s1 s2 : string) : s1 = s2 -> (ratio s1 s2 == 100)%Q.
Proof.
  intros <-.
  destruct (Z.of_nat (String.length s1) + Z.of_nat (String.length s1))%Z
    as [|p|p] eqn:Hp; [unfold ratio; rewrite Hp; reflexivity| |lia].
  rewrite (ratio_fraction s1 s1 p Hp).
  rewrite (proj2 (indel_distance_0 s1 s1) eq_refl).
  unfold Qeq. cbn [Qnum Qden]. lia.
Qed.

End FuzzBounds.

(** The score of two strings lies between 0 and 100. *)
Theorem ratio_range (s1 s2 : string) :
  (0 <= Fuzz.ratio s1 s2 <= 100)%Q.
Proof.
  destruct (Z.of_nat (String.length s1) + Z.of_nat (String.length s2))%Z
    as [|p|p] eqn:Hp.
  - unfold Fuzz.ratio. rewrite Hp. cbn. split; discriminate.
  - pose proof (FuzzBounds.indel_distance_bounds s1 s2) as Hd. rewrite Hp in Hd.
    rewrite (FuzzBounds.ratio_fraction s1 s2 p Hp).
    unfold Qle. cbn [Qnum Qden]. split; nia.
  - lia.
Qed.

(** The score of two strings is 100 exactly when they are equal: the
    score of two titles is 100 exactly when they are equal up to case. *)
Theorem ratio_100_iff_equal (s1 s2 : string) :
  (Fuzz.ratio s1 s2 == 100)%Q <-> s1 = s2.
Proof.
  destruct (Z.of_nat (String.length s1) + Z.of_nat (String.length s2))%Z
    as [|p|p] eqn:Hp.
  - assert (s1 = "" /\ s2 = "") as [-> ->].
    { destruct s1, s2; cbn in Hp; try lia. split; reflexivity. }
    split; reflexivity.
  - rewrite (FuzzBounds.ratio_fraction s1 s2 p Hp).
    rewrite <- FuzzBounds.indel_distance_0.
    unfold Qeq. cbn [Qnum Qden]. split; intros H; nia.
  - lia.
Qed.

(** ** More on [verify] *)

Section VerifyMore.

Context {W : Type} {N : Network W} {L : Library}.


(** X1. [verify] sends one request to DBLP, or one to DBLP, then the pause
    of [API_DELAY], then one to OpenAlex, all with the title as query: it
    never asks OpenAlex first, never twice, and never without the pause. *)
Theorem verify_trace_shape (t : string) (w : W) :
  trace_of (verify t w) = [EvGet DBLP t]
  \/ trace_of (verify t w) = [EvGet DBLP t; EvSleep API_DELAY; EvGet OpenAlex t].
Proof.
  rewrite verify_unfold. destruct (get_dblp t w) as [o w1].
  destruct (get_openalex t (sleep API_DELAY w1)) as [o2 w2].
  destruct (try_except (dblp_body o)) as [r|]; [|right; reflexivity].
  destruct (title_score t (title r)) as [score|e]; [|left; reflexivity].
  destruct (Qlt_le_dec score 70); [right|left]; reflexivity.
Qed.

(** X2. A candidate of DBLP that [verify] returns scores 70 or more
    against the queried title, and OpenAlex was not asked. *)
Theorem verify_keeps_confident_primary (t : string) (w : W) (m : candidate) :
  result_of (verify t w) = Ok (Some m) ->
  source m = "DBLP" ->
  (exists s : Q, title_score t (title m) = Ok s /\ (70 <= s)%Q)
  /\ trace_of (verify t w) = [EvGet DBLP t].
Proof.
  rewrite verify_unfold. destruct (get_dblp t w) as [o w1].
  destruct (get_openalex t (sleep API_DELAY w1)) as [o2 w2].
  unfold result_of, trace_of. intros Hm Hsrc.
  assert (Hfb : try_except (openalex_body o2) = Some m -> False).
  { intros H. apply openalex_body_source in H. rewrite Hsrc in H. discriminate. }
  destruct (try_except (dblp_body o)) as [r|]; cbn [fst snd] in *;
    [|exfalso; apply Hfb; congruence].
  destruct (title_score t (title r)) as [score|e] eqn:Hs; [|discriminate].
  destruct (Qlt_le_dec score 70) as [|Hge]; cbn [fst snd] in *;
    [exfalso; apply Hfb; congruence|].
  injection Hm as <-. split; [|reflexivity]. exists score. split; assumption.
Qed.


(** X4. When DBLP returns no candidate, or one whose title scores below
    70, what [verify] returns is what OpenAlex returns, asked after the
    pause, whatever that is. *)
Theorem verify_falls_back (t : string) (w : W) :
  no_primary_kept t w ->
  result_of (verify t w) = result_of (_search_openalex t (fallback_world t w))
  /\ world_of (verify t w) = world_of (_search_openalex t (fallback_world t w))
  /\ trace_of (verify t w) = [EvGet DBLP t; EvSleep API_DELAY; EvGet OpenAlex t].
Proof.
  unfold no_primary_kept, fallback_world.
  rewrite verify_unfold, search_dblp_unfold. unfold _search_openalex.
  destruct (get_dblp t w) as [o w1]. unfold result_of, world_of, trace_of.
  cbn [fst snd].
  destruct (get_openalex t (sleep API_DELAY w1)) as [o2 w2].
  intros [[= ->]|(c & s & [= ->] & -> & Hlt)].
  - repeat split.
  - destruct (Qlt_le_dec s 70) as [_|Hge]; [repeat split|].
    exfalso. exact (Qlt_not_le _ _ Hlt Hge).
Qed.

(** X5. A candidate whose title equals the recorded title up to case is
    never classified TitleMismatch: the key is Verified or AuthorMismatch. *)
Theorem same_title_never_mismatch (bib_data : gmap string bib_entry) (key : string)
    (entry : bib_entry) (w : W) (m : candidate) (found : string)
    (o : citation_info * option issue) :
  bib_data !! key = Some entry ->
  result_of (verify (bib_title entry) w) = Ok (Some m) ->
  title m = JStr found ->
  PyStr.lower found = PyStr.lower (bib_title entry) ->
  result_of (classify bib_data key w) = Ok o ->
  ci_status o.1 = Verified \/ ci_status o.1 = AuthorMismatch.
Proof.
  intros Hk Hv Ht Hsame.
  rewrite (classify_present _ _ _ _ Hk). unfold result_of at 1. cbn [fst].
  rewrite Hv. cbn [res_bind]. unfold classify_match, title_score.
  rewrite Ht. cbn [Py.lower res_bind]. rewrite Hsame.
  destruct (Qlt_le_dec _ SIMILARITY_THRESHOLD) as [Hlt|_].
  - exfalso.
    assert (H100 : (Fuzz.ratio (PyStr.lower (bib_title entry))
                      (PyStr.lower (bib_title entry)) == 100)%Q)
      by (apply FuzzBounds.ratio_100; reflexivity).
    rewrite H100 in Hlt. revert Hlt. unfold SIMILARITY_THRESHOLD, Qlt. cbn. lia.
  - destruct (author_match _ _) as [[|]|]; cbn [res_bind negb]; try discriminate;
      intros [= <-]; [left|right]; reflexivity.
Qed.

End VerifyMore.

(** ** What the providers read of an answer *)

Section Answers.

Context {L : Library}.

(** X6. [_search_openalex] reads the first result only: the results after
    it and the other keys of the answer change nothing. *)
Theorem openalex_top_hit_only (data : gmap string json) (x : json) (rest : list json) :
  data !! "results" = Some (JArr (x :: rest)) ->
  openalex_body (Response 200 (Some (JObj data)))
  = openalex_body (Response 200 (Some (JObj {["results" := JArr [x]]}))).
Proof.
  intros H. unfold openalex_body, openalex_results, Py.get. cbn [Z.eqb Pos.eqb res_bind].
  rewrite H, lookup_singleton_eq. reflexivity.
Qed.

Lemma dblp_hits_single (x : json) :
  dblp_hits (JObj {["result" := JObj {["hits" := JObj {["hit" := JArr [x]]}]}]})
  = Ok (JArr [x]).
Proof.
  unfold dblp_hits, Py.get. rewrite lookup_singleton_eq. cbn [res_bind].
  rewrite lookup_singleton_eq. cbn [res_bind]. rewrite lookup_singleton_eq.
  reflexivity.
Qed.

(** X7. [_search_dblp] reads the first hit only: the hits after it and the
    other keys of the answer change nothing. *)
Theorem dblp_top_hit_only (data result hits : gmap string json)
    (x : json) (rest : list json) :
  data !! "result" = Some (JObj result) ->
  result !! "hits" = Some (JObj hits) ->
  hits !! "hit" = Some (JArr (x :: rest)) ->
  dblp_body (Response 200 (Some (JObj data))) = dblp_body (dblp_single_hit x).
Proof.
  intros Hd Hr Hh. unfold dblp_single_hit, dblp_body. cbn [Z.eqb Pos.eqb res_bind].
  rewrite dblp_hits_single.
  unfold dblp_hits, Py.get. rewrite Hd. cbn [res_bind]. rewrite Hr. cbn [res_bind].
  rewrite Hh. reflexivity.
Qed.

Lemma dblp_body_info (info : gmap string json) :
  dblp_body (dblp_hit info) =
    let? authors_obj := Py.get (JObj info) "authors" (JObj ∅) in
    let? authors_raw := Py.get authors_obj "author" (JArr []) in
    let authors_raw :=
      match authors_raw with
      | JObj _ => JArr [authors_raw]
      | JStr _ => JArr [JObj {["text" := authors_raw]}]
      | _ => authors_raw
      end in
    let? elems := Py.iter authors_raw in
    let? authors := Py.comprehension dblp_author elems in
    let? title := Py.get (JObj info) "title" (JStr "") in
    let? year := Py.get (JObj info) "year" (JStr "N/A") in
    let? url := Py.get (JObj info) "url" (JStr "") in
    Ok (Some {| source := "DBLP"; title := title; year := year;
                authors := authors; url := url |}).
Proof.
  unfold dblp_hit, dblp_single_hit, dblp_body. cbn [Z.eqb Pos.eqb res_bind].
  rewrite dblp_hits_single. cbn [res_bind Py.truthy Py.index0 Py.item].
  rewrite lookup_singleton_eq. reflexivity.
Qed.

(** X8. In an answer of DBLP a single author, given as one object or as a
    bare string, is read like the list with that one element. *)
Theorem dblp_single_author_as_list (info authors_obj : gmap string json) (a : json) :
  (exists m : gmap string json, a = JObj m) \/ (exists s : string, a = JStr s) ->
  info !! "authors" = Some (JObj authors_obj) ->
  authors_obj !! "author" = Some a ->
  dblp_body (dblp_hit info)
  = dblp_body (dblp_hit (<["authors" := JObj {["author" := JArr [a]]}]> info)).
Proof.
  intros Ha Hi Hao. rewrite !dblp_body_info. unfold Py.get.
  rewrite Hi, lookup_insert_eq. cbn [res_bind].
  rewrite Hao, lookup_singleton_eq. cbn [res_bind].
  rewrite !lookup_insert_ne by discriminate.
  destruct Ha as [[m ->]|[s ->]]; cbn [Py.iter]; [reflexivity|].
  cbn [Py.comprehension dblp_author Py.item res_bind py_str].
  rewrite lookup_singleton_eq. reflexivity.
Qed.

End Answers.

(** ** What a run reports *)

Section Reports.

Context {W : Type} {N : Network W} {L : Library}.

Lemma verify_candidate_cases (t : string) (w : W) (m : candidate) :
  result_of (verify t w) = Ok (Some m) ->
  source m = "OpenAlex"
  \/ (source m = "DBLP" /\ exists s : Q, title_score t (title m) = Ok s /\ (70 <= s)%Q).
Proof.
  rewrite verify_unfold. destruct (get_dblp t w) as [o w1].
  destruct (get_openalex t (sleep API_DELAY w1)) as [o2 w2].
  unfold result_of. intros Hm.
  assert (Hfb : try_except (openalex_body o2) = Some m -> source m = "OpenAlex")
    by apply openalex_body_source.
  destruct (try_except (dblp_body o)) as [r|] eqn:Hd; cbn [fst] in *;
    [|left; apply Hfb; congruence].
  destruct (title_score t (title r)) as [score|e] eqn:Hs; [|discriminate].
  destruct (Qlt_le_dec score 70) as [|Hge]; cbn [fst] in *;
    [left; apply Hfb; congruence|].
  injection Hm as <-. right. split; [exact (dblp_body_source _ _ Hd)|].
  exists score. split; assumption.
Qed.

Lemma classify_consistent (bib_data : gmap string bib_entry) (key : string) (w : W)
    (o : citation_info * option issue) :
  result_of (classify bib_data key w) = Ok o -> outcome_consistent bib_data o.1.
Proof.
  unfold outcome_consistent.
  destruct (bib_data !! key) as [entry|] eqn:Hk.
  - rewrite (classify_present _ _ _ _ Hk). unfold result_of at 1. cbn [fst].
    destruct (result_of (verify (bib_title entry) w)) as [[m|]|e];
      cbn [res_bind]; [| |discriminate].
    + unfold classify_match.
      destruct (title_score (bib_title entry) (title m)); cbn [res_bind];
        [|discriminate].
      destruct (Qlt_le_dec _ _);
        [|destruct (author_match _ _) as [[|]|]; cbn [res_bind negb];
          try discriminate];
        intros [= <-]; cbn; rewrite Hk; repeat split; try discriminate;
        intros [|]; discriminate.
    + intros [= <-]. cbn. rewrite Hk. repeat split; try discriminate. auto.
  - rewrite (classify_missing _ _ _ Hk). intros [= <-]. cbn. rewrite Hk.
    repeat split; auto.
Qed.

Lemma classify_justified (bib_data : gmap string bib_entry) (key : string) (w : W)
    (o : citation_info * option issue) (i : issue) :
  result_of (classify bib_data key w) = Ok o -> o.2 = Some i ->
  issue_justified bib_data i.
Proof.
  destruct (bib_data !! key) as [entry|] eqn:Hk.
  - rewrite (classify_present _ _ _ _ Hk). unfold result_of at 1. cbn [fst].
    destruct (result_of (verify (bib_title entry) w)) as [[m|]|e] eqn:Hv;
      cbn [res_bind]; [| |discriminate].
    + unfold classify_match.
      destruct (title_score (bib_title entry) (title m)) as [s|] eqn:Hs;
        cbn [res_bind]; [|discriminate].
      destruct (Qlt_le_dec _ _) as [Hlt|Hge].
      * intros [= <-] [= <-]. cbn. repeat split; eauto.
        destruct (verify_candidate_cases _ _ _ Hv) as [Ho|(Hd & s' & Hs' & Hge)].
        -- left. exact Ho.
        -- right. split; [exact Hd|]. rewrite Hs in Hs'. injection Hs' as <-.
           exact Hge.
      * destruct (author_match _ _) as [[|]|]; cbn [res_bind negb];
          try discriminate; intros [= <-] [= <-].
        cbn. repeat split; eauto.
    + intros [= <-] [= <-]. cbn. repeat split; eauto.
  - rewrite (classify_missing _ _ _ Hk). intros [= <-] [= <-]. exact Hk.
Qed.

Lemma classified_forall (bib_data : gmap string bib_entry) (keys : list string)
    (os : list (citation_info * option issue))
    (P : citation_info * option issue -> Prop) :
  (forall key w o, result_of (classify bib_data key w) = Ok o -> P o) ->
  Forall2 (classified bib_data) keys os -> Forall P os.
Proof.
  intros HP. induction 1 as [|k o keys os [w Ho] _ IH]; constructor; eauto.
Qed.

(** X9. In the full report of a run the metadata of an outcome is the
    entry of its key; it is absent exactly for the status MissingInBib, and
    the verification result is absent exactly for MissingInBib and
    NotFound. *)
Theorem report_outcomes_consistent (tex_keys : list string)
    (bib_data : gmap string bib_entry) (w : W) (r : reports) :
  result_of (main tex_keys bib_data w) = Ok (Some r) ->
  Forall (outcome_consistent bib_data) (all_citations_report r).
Proof.
  intros Hr. destruct (main_outcomes _ _ _ _ Hr) as (os & Hos & ->).
  cbn [all_citations_report]. apply Forall_fmap.
  eapply classified_forall; [|exact Hos].
  intros key w' o Ho. exact (classify_consistent _ _ _ _ Ho).
Qed.

(** X10. Every entry of the issues report is justified by the
    bibliography: a missing-key entry names a key without entry; the other
    entries carry the title or the author of the entry of their key; the
    risk is High for not-found entries and Medium for mismatches; a
    title-mismatch entry records the score of the two titles it records,
    which is below 90, and at least 70 when the candidate came from DBLP. *)
Theorem report_issues_justified (tex_keys : list string)
    (bib_data : gmap string bib_entry) (w : W) (r : reports) :
  result_of (main tex_keys bib_data w) = Ok (Some r) ->
  Forall (issue_justified bib_data) (hallucination_report r).
Proof.
  intros Hr. destruct (main_outcomes _ _ _ _ Hr) as (os & Hos & ->).
  cbn [hallucination_report]. apply Forall_forall. intros i Hi.
  apply issues_of_elem in Hi as (o & Ho & Hoi).
  assert (HF : Forall (fun o => forall i, o.2 = Some i -> issue_justified bib_data i) os).
  { eapply classified_forall; [|exact Hos].
    intros key w' o' Ho' i' Hi'. exact (classify_justified _ _ _ _ _ Ho' Hi'). }
  rewrite Forall_forall in HF. exact (HF o Ho i Hoi).
Qed.

End Reports.

(** ** What a run asks and writes *)

Lemma trace_of_bind {W A B : Type} (m : M W A) (k : A -> M W B) (w : W) :
  trace_of (bind m k w) =
    trace_of (m w)
    ++ match result_of (m w) with
       | Ok a => trace_of (k a (world_of (m w)))
       | Raise _ => []
       end.
Proof.
  unfold bind, result_of, world_of, trace_of.
  destruct (m w) as [[[a|e] w1] ev]; cbn [fst snd].
  - destruct (k a w1) as [[r w2] ev2]. reflexivity.
  - rewrite app_nil_r. reflexivity.
Qed.

Lemma result_of_triple {W A : Type} (r : res A) (w : W) (ev : list event) :
  result_of (r, w, ev) = r.
Proof. reflexivity. Qed.

Lemma world_of_triple {W A : Type} (r : res A) (w : W) (ev : list event) :
  world_of (r, w, ev) = w.
Proof. reflexivity. Qed.

Lemma trace_of_triple {W A : Type} (r : res A) (w : W) (ev : list event) :
  trace_of (r, w, ev) = ev.
Proof. reflexivity. Qed.

Section Requests.

Context {W : Type} {N : Network W} {L : Library}.

Lemma verify_trace_cases (t : string) (w : W) : verify_trace t (trace_of (verify t w)).
Proof.
  unfold verify_trace. rewrite verify_unfold. destruct (get_dblp t w) as [o w1].
  destruct (get_openalex t (sleep API_DELAY w1)) as [o2 w2].
  destruct (try_except (dblp_body o)) as [r|]; [|right; reflexivity].
  destruct (title_score t (title r)) as [score|e]; [|left; reflexivity].
  destruct (Qlt_le_dec score 70); [right|left]; reflexivity.
Qed.

Lemma loop_trace (bib_data : gmap string bib_entry) (keys : list string)
    (r : reports) (w : W) :
  exists (titles : list string) (traces : list (list event)),
    titles `prefix_of` titles_to_check bib_data keys
    /\ Forall2 verify_trace titles traces
    /\ trace_of (verification_loop bib_data keys r w) = concat traces
    /\ (forall r', result_of (verification_loop bib_data keys r w) = Ok r' ->
        titles = titles_to_check bib_data keys).
Proof.
  revert r w. induction keys as [|key keys IH]; intros r w.
  - exists [], []. split; [apply prefix_nil|]. split; [constructor|].
    split; reflexivity.
  - cbn [verification_loop]. rewrite trace_of_bind, result_of_bind.
    unfold titles_to_check. cbn [omap list_omap].
    fold (titles_to_check bib_data keys).
    destruct (bib_data !! key) as [entry|] eqn:Hk; cbn [fmap option_fmap option_map].
    + rewrite (classify_present _ _ _ _ Hk).
      rewrite result_of_triple, world_of_triple, trace_of_triple.
      destruct (let? m := result_of (verify (bib_title entry) w) in
                classify_match bib_data key entry m) as [o|e].
      * destruct (IH (append_outcome r o) (world_of (verify (bib_title entry) w)))
          as (titles & traces & Hp & Hf & Ht & Hr).
        exists (bib_title entry :: titles),
               (trace_of (verify (bib_title entry) w) :: traces).
        split; [apply prefix_cons, Hp|]. split; [constructor; [apply verify_trace_cases|exact Hf]|].
        split; [cbn [concat]; rewrite Ht; reflexivity|].
        intros r' Hr'. f_equal. exact (Hr r' Hr').
      * exists [bib_title entry], [trace_of (verify (bib_title entry) w)].
        split; [apply prefix_cons, prefix_nil|].
        split; [constructor; [apply verify_trace_cases|constructor]|].
        split; [cbn [concat]; rewrite app_nil_r; reflexivity|]. discriminate.
    + rewrite (classify_missing _ _ _ Hk).
      rewrite result_of_triple, world_of_triple, trace_of_triple. cbn [app].
      apply IH.
Qed.

(** X11. The requests of a run are those of one [verify] per key of the
    scan that has an entry, in the order of the loop, each for the title of
    that entry: the trace of the run is such [verify] traces put end to
    end, as many as there are such keys when the run does not abort, fewer
    when it does. Nothing is asked for a key without entry, and nothing
    about any other title. *)
Theorem run_requests (tex_keys : list string) (bib_data : gmap string bib_entry) (w : W) :
  exists (titles : list string) (traces : list (list event)),
    titles `prefix_of` titles_to_check bib_data tex_keys
    /\ Forall2 verify_trace titles traces
    /\ trace_of (main tex_keys bib_data w) = concat traces
    /\ (forall x, result_of (main tex_keys bib_data w) = Ok x ->
        titles = titles_to_check bib_data tex_keys).
Proof.
  unfold main. destruct tex_keys as [|k ks].
  { exists [], []. split; [apply prefix_nil|]. split; [constructor|].
    split; reflexivity. }
  destruct (bool_decide_reflect (bib_data = ∅)) as [->|_].
  { exists [], []. split; [apply prefix_nil|]. split; [constructor|].
    split; [reflexivity|]. intros _ _. unfold titles_to_check.
    induction (k :: ks) as [|k' ks' IH]; [reflexivity|].
    cbn. rewrite lookup_empty. exact IH. }
  rewrite trace_of_bind, result_of_bind.
  destruct (loop_trace bib_data (k :: ks) (Reports [] []) w)
    as (titles & traces & Hp & Hf & Ht & Hr).
  exists titles, traces. split; [exact Hp|]. split; [exact Hf|]. split.
  - rewrite Ht.
    destruct (result_of (verification_loop bib_data (k :: ks) (Reports [] []) w));
      cbn; rewrite app_nil_r; reflexivity.
  - intros x Hx.
    destruct (result_of (verification_loop bib_data (k :: ks) (Reports [] []) w))
      as [r'|e] eqn:Hl; [|discriminate].
    exact (Hr r' eq_refl).
Qed.

(** X12. What a run writes. The full report is always written and holds
    one outcome per key of the scan; the issues report is written exactly
    when some outcome is not Verified, the message that nothing was found is
    printed exactly when all are Verified, and the number of issues printed
    is the number of outcomes that are not Verified. *)
Theorem run_outputs (tex_files : list (option string)) (bib_files : list Bib.bib_file)
    (order : list string) (w : W) (outs : list output) :
  enumerates order tex_files ->
  result_of (run bib_files order w) = Ok (Some outs) ->
  exists (all : list citation_info) (issues : list issue),
    (forall k : string, k ∈ Tex.scan_tex_files tex_files <-> k ∈ (ci_key <$> all))
    /\ NoDup (ci_key <$> all)
    /\ length issues = length (filter (fun ci => not_verified ci = true) all)
    /\ outs = WriteAllCitations all
              :: match issues with
                 | [] => [PrintNoHallucinations]
                 | _ :: _ => [WriteHallucinationReport issues;
                              PrintFoundIssues (length issues)]
                 end
              ++ [PrintSaved].
Proof.
  intros [Hnd Hin]. unfold run. rewrite result_of_bind.
  destruct (result_of (main order (Bib.parse_bib_files bib_files) w))
    as [[r|]|e] eqn:Hr; try discriminate.
  cbn. intros [= <-].
  destruct (main_outcomes _ _ _ _ Hr) as (os & Hos & ->).
  assert (Hfor : Forall2 outcome_for order os).
  { eapply Forall2_impl; [exact Hos|].
    intros k o [w' Ho]. exact (classify_outcome _ _ _ _ Ho). }
  destruct (outcomes_keys _ _ Hfor) as [H1 H2].
  exists os.*1, (issues_of os). cbn [all_citations_report hallucination_report].
  rewrite H1. split; [intros k; symmetry; apply Hin|]. split; [exact Hnd|].
  split; [|reflexivity].
  rewrite <- (length_fmap issue_key), H2, length_fmap. reflexivity.
Qed.

End Requests.

(** ** The scan of the manuscript *)

Module TextFacts.

Import PyStr Text.

Lemma append_cons (c : ascii) (a b : string) : String c a +:+ b = String c (a +:+ b).
Proof. reflexivity. Qed.

Lemma append_nil (b : string) : EmptyString +:+ b = b.
Proof. reflexivity. Qed.

Lemma append_assoc (a b c : string) : (a +:+ b) +:+ c = a +:+ (b +:+ c).
Proof.
  induction a as [|x a IH]; [reflexivity|]. rewrite !append_cons, IH. reflexivity.
Qed.

Lemma all_app (P : ascii -> bool) (a b : string) :
  all P (a +:+ b) = all P a && all P b.
Proof.
  induction a as [|c a IH]; [reflexivity|]. rewrite append_cons. cbn [all].
  rewrite IH, andb_assoc. reflexivity.
Qed.

Lemma all_lstrip (P : ascii -> bool) (s : string) :
  all P s = true -> all P (lstrip s) = true.
Proof.
  induction s as [|c s IH]; [reflexivity|]. cbn [lstrip].
  destruct (isspace c); [|auto]. cbn [all]. intros H.
  apply andb_true_iff in H as [_ H]. auto.
Qed.

Lemma all_rstrip (P : ascii -> bool) (s : string) :
  all P s = true -> all P (rstrip s) = true.
Proof.
  induction s as [|c s IH]; [reflexivity|]. cbn [all rstrip]. intros H.
  apply andb_true_iff in H as [Hc H]. specialize (IH H).
  destruct (rstrip s).
  - destruct (isspace c); [reflexivity|]. cbn [all]. rewrite Hc. reflexivity.
  - cbn [all] in *. rewrite Hc. exact IH.
Qed.

Lemma all_strip (P : ascii -> bool) (s : string) :
  all P s = true -> all P (strip s) = true.
Proof. intros H. apply all_rstrip, all_lstrip, H. Qed.

(** [rstrip] leaves the first character of a string that starts with no
    white space. *)
Lemma rstrip_head (c : ascii) (s : string) :
  isspace c = false -> exists t, rstrip (String c s) = String c t.
Proof.
  intros Hc. cbn [rstrip]. destruct (rstrip s); [rewrite Hc|]; eexists; reflexivity.
Qed.

Lemma rstrip_idempotent (s : string) : rstrip (rstrip s) = rstrip s.
Proof.
  induction s as [|c s IH]; [reflexivity|]. cbn [rstrip].
  destruct (rstrip s) as [|d t] eqn:Hr.
  - destruct (isspace c) eqn:Hc; [reflexivity|]. cbn [rstrip]. rewrite Hc. reflexivity.
  - cbn [rstrip]. cbn [rstrip] in IH. rewrite IH. reflexivity.
Qed.

Lemma lstrip_head (s : string) :
  lstrip s = EmptyString \/ exists c t, lstrip s = String c t /\ isspace c = false.
Proof.
  induction s as [|c s IH]; [left; reflexivity|]. cbn [lstrip].
  destruct (isspace c) eqn:Hc; [exact IH|]. right. eauto.
Qed.

Lemma strip_trimmed (s : string) : trimmed (strip s).
Proof.
  unfold trimmed, strip.
  destruct (lstrip_head s) as [->|(c & t & -> & Hc)]; [reflexivity|].
  destruct (rstrip_head c t Hc) as [u Hu]. rewrite Hu.
  cbn [lstrip]. rewrite Hc, <- Hu. apply rstrip_idempotent.
Qed.

Lemma length_app (a b : string) :
  String.length (a +:+ b) = (String.length a + String.length b)%nat.
Proof.
  induction a as [|c a IH]; [reflexivity|]. rewrite append_cons.
  cbn [String.length]. rewrite IH. reflexivity.
Qed.

End TextFacts.

Module TexFacts.

Import Tex Text.

Lemma strip_from_clean (in_comment escaped : bool) (s : string) :
  no_comment_from (if in_comment then false else escaped)
    (strip_from in_comment escaped s) = true.
Proof.
  revert in_comment escaped. induction s as [|c s IH]; intros ic esc; [reflexivity|].
  cbn [strip_from]. destruct ic.
  - destruct (Ascii.eqb_spec c newline) as [->|_].
    + cbn [no_comment_from]. exact (IH false false).
    + exact (IH true false).
  - destruct (Ascii.eqb c percent && negb esc) eqn:Hp.
    + apply andb_true_iff in Hp as [_ He]. destruct esc; [discriminate|].
      exact (IH true false).
    + cbn [no_comment_from]. rewrite Hp. exact (IH false (Ascii.eqb c backslash)).
Qed.

Lemma strip_from_fixed (escaped : bool) (s : string) :
  no_comment_from escaped s = true -> strip_from false escaped s = s.
Proof.
  revert escaped. induction s as [|c s IH]; intros esc; [reflexivity|].
  cbn [no_comment_from strip_from]. intros H.
  apply andb_true_iff in H as [Hp H]. apply negb_true_iff in Hp. rewrite Hp.
  rewrite (IH _ H). reflexivity.
Qed.

Lemma strip_from_newline (in_comment escaped : bool) (a b : string) :
  strip_from in_comment escaped (a +:+ String newline b)
  = strip_from in_comment escaped a +:+ String newline (strip_comments b).
Proof.
  revert in_comment escaped. induction a as [|c a IH]; intros ic esc.
  - rewrite TextFacts.append_nil. cbn [strip_from]. destruct ic; [reflexivity|].
    destruct esc; reflexivity.
  - rewrite TextFacts.append_cons. cbn [strip_from]. destruct ic.
    + destruct (Ascii.eqb c newline); rewrite IH; reflexivity.
    + destruct (Ascii.eqb c percent && negb esc); rewrite IH; reflexivity.
Qed.

Lemma strip_from_comment (cm : string) :
  newline_free cm = true -> strip_from true false cm = EmptyString.
Proof.
  induction cm as [|c cm IH]; [reflexivity|].
  unfold newline_free. cbn [all strip_from]. intros H.
  apply andb_true_iff in H as [Hc H]. unfold not_char in Hc.
  apply negb_true_iff in Hc. rewrite Hc. exact (IH H).
Qed.

Lemma strip_from_code (escaped : bool) (code cm : string) :
  no_comment_from escaped code = true ->
  (match code with EmptyString => escaped | _ => ends_with_backslash code end) = false ->
  newline_free cm = true ->
  strip_from false escaped (code +:+ String percent cm) = code.
Proof.
  revert escaped. induction code as [|c code IH]; intros esc Hn He Hcm.
  - rewrite TextFacts.append_nil. cbn [strip_from]. rewrite He.
    rewrite Ascii.eqb_refl. cbn [andb negb].
    exact (strip_from_comment cm Hcm).
  - rewrite TextFacts.append_cons. cbn [strip_from]. cbn [no_comment_from] in Hn.
    apply andb_true_iff in Hn as [Hp Hn]. apply negb_true_iff in Hp. rewrite Hp.
    f_equal. apply IH; [exact Hn| |exact Hcm].
    destruct code; [exact He|exact He].
Qed.

End TexFacts.

(** X13. After [strip_comments] no percent sign is left that starts a
    comment, and stripping again changes nothing. *)
Theorem strip_comments_clean (content : string) :
  Text.no_comment (Tex.strip_comments content) = true
  /\ Tex.strip_comments (Tex.strip_comments content) = Tex.strip_comments content.
Proof.
  assert (H : Text.no_comment (Tex.strip_comments content) = true)
    by exact (TexFacts.strip_from_clean false false content).
  split; [exact H|]. exact (TexFacts.strip_from_fixed false _ H).
Qed.

(** X14. Comments are removed line by line: a comment ends at the end of
    its line, and the newline is kept. *)
Theorem strip_comments_by_line (a b : string) :
  Tex.strip_comments (a +:+ String Tex.newline b)
  = Tex.strip_comments a +:+ String Tex.newline (Tex.strip_comments b).
Proof. apply TexFacts.strip_from_newline. Qed.

(** X15. Of a line made of code and a comment, the code is what is left:
    the code has no percent sign other than escaped ones and does not end
    with a backslash, the comment starts at the percent sign that follows
    it. *)
Theorem strip_comments_line (code comment : string) :
  Text.no_comment code = true ->
  Text.ends_with_backslash code = false ->
  Text.newline_free comment = true ->
  Tex.strip_comments (code +:+ String Tex.percent comment) = code.
Proof.
  intros Hn He Hc. apply TexFacts.strip_from_code; [exact Hn| |exact Hc].
  destruct code; [reflexivity|exact He].
Qed.

Module ScanFacts.

Import Tex Text TextFacts.

Lemma cite_prefix (x : string) :
  "\cite" +:+ x = String "\" (String "c" (String "i" (String "t" (String "e" x)))).
Proof. reflexivity. Qed.

Lemma drop_letters_app (v x : string) :
  letters v = true ->
  match x with EmptyString => True | String d _ => is_letter d = false end ->
  drop_letters (v +:+ x) = x.
Proof.
  intros Hv Hx. induction v as [|c v IH].
  - rewrite append_nil. destruct x as [|d x]; [reflexivity|].
    cbn [drop_letters]. rewrite Hx. reflexivity.
  - rewrite append_cons. cbn [drop_letters]. unfold letters in Hv. cbn [all] in Hv.
    apply andb_true_iff in Hv as [Hc Hv]. rewrite Hc. exact (IH Hv).
Qed.

Lemma take_group_app (body rest : string) :
  brace_free body = true ->
  take_group (body +:+ String "}" rest) = (body, String "}" rest).
Proof.
  intros Hb. induction body as [|c body IH].
  - reflexivity.
  - rewrite append_cons. cbn [take_group]. unfold brace_free in Hb. cbn [all] in Hb.
    apply andb_true_iff in Hb as [Hc Hb]. apply negb_true_iff in Hc. rewrite Hc.
    rewrite (IH Hb). reflexivity.
Qed.

Lemma take_group_brace_free (s : string) : brace_free (take_group s).1 = true.
Proof.
  induction s as [|c s IH]; [reflexivity|]. cbn [take_group].
  destruct (is_brace c) eqn:Hc; [reflexivity|].
  destruct (take_group s) as [g rest]. cbn [fst] in *.
  unfold brace_free. cbn [all]. rewrite Hc. exact IH.
Qed.

Lemma match_cite_group (s g rest : string) :
  match_cite s = Some (g, rest) -> brace_free g = true /\ g <> EmptyString.
Proof.
  unfold match_cite. destruct (PyStr.startswith "\cite" s); [|discriminate].
  destruct (drop_star (drop_letters (drop 5 s))) as [|d s1]; [discriminate|].
  destruct (Ascii.eqb_spec d "{") as [->|Hd].
  - pose proof (take_group_brace_free s1) as Hb.
    destruct (take_group s1) as [[|c g'] [|e rest']]; try discriminate.
    destruct (Ascii.eqb_spec e "}") as [->|He].
    + intros [= <- <-]. split; [exact Hb|discriminate].
    + destruct e as [[] [] [] [] [] [] [] []]; try discriminate; contradiction.
  - destruct d as [[] [] [] [] [] [] [] []]; try discriminate; contradiction.
Qed.

Lemma findall_groups (skip : nat) (s : string) :
  Forall (fun g => brace_free g = true /\ g <> EmptyString) (findall_from skip s).
Proof.
  revert skip. induction s as [|c s IH]; intros skip; [constructor|].
  cbn [findall_from]. destruct skip as [|k]; [|apply IH].
  destruct (match_cite (String c s)) as [[g rest]|] eqn:Hm; [|apply IH].
  constructor; [exact (match_cite_group _ _ _ Hm)|apply IH].
Qed.

Lemma findall_skip (a rest : string) :
  findall_from (String.length a) (a +:+ rest) = findall_from O rest.
Proof.
  induction a as [|c a IH]; [destruct rest; reflexivity|].
  rewrite append_cons. exact IH.
Qed.

Lemma split_comma_nonempty (s : string) : split_comma s <> [].
Proof.
  induction s as [|c s IH]; [discriminate|]. cbn [split_comma].
  destruct (Ascii.eqb c ","); [discriminate|]. destruct (split_comma s); discriminate.
Qed.

Lemma split_comma_pieces (P : ascii -> bool) (s : string) :
  all P s = true ->
  Forall (fun p => all P p = true /\ comma_free p = true) (split_comma s).
Proof.
  induction s as [|c s IH]; [repeat constructor|]. cbn [all split_comma]. intros H.
  apply andb_true_iff in H as [Hc H]. specialize (IH H).
  destruct (Ascii.eqb c ",") eqn:Hcomma; [constructor; [split; reflexivity|exact IH]|].
  destruct (split_comma s) as [|h t]; [repeat constructor; cbn; rewrite ?Hc; unfold not_char; rewrite ?Hcomma; reflexivity|].
  inversion IH as [|? ? [Hh1 Hh2] Ht]; subst. constructor; [|exact Ht].
  split; [cbn [all]; rewrite Hc; exact Hh1|].
  unfold comma_free, not_char in *. cbn [all]. rewrite Hcomma. exact Hh2.
Qed.

Lemma split_comma_single (k : string) :
  comma_free k = true -> split_comma k = [k].
Proof.
  induction k as [|c k IH]; [reflexivity|]. unfold comma_free, not_char. cbn [all split_comma].
  intros H. apply andb_true_iff in H as [Hc H]. apply negb_true_iff in Hc.
  rewrite Hc, (IH H). reflexivity.
Qed.

Lemma split_comma_app (k rest : string) :
  comma_free k = true ->
  split_comma (k +:+ String "," rest) = k :: split_comma rest.
Proof.
  induction k as [|c k IH]; [reflexivity|]. unfold comma_free, not_char. cbn [all].
  intros H. apply andb_true_iff in H as [Hc H]. apply negb_true_iff in Hc.
  rewrite append_cons. cbn [split_comma]. rewrite Hc, (IH H). reflexivity.
Qed.

Lemma join_comma_cons (k k' : string) (ks : list string) :
  join_comma (k :: k' :: ks) = k +:+ String "," (join_comma (k' :: ks)).
Proof. reflexivity. Qed.

Lemma split_join (ks : list string) :
  ks <> [] -> Forall (fun k => comma_free k = true) ks ->
  split_comma (join_comma ks) = ks.
Proof.
  induction ks as [|k ks IH]; [contradiction|]. intros _ Hks.
  inversion Hks as [|? ? Hk Hks']; subst. destruct ks as [|k' ks].
  - exact (split_comma_single k Hk).
  - rewrite join_comma_cons, (split_comma_app _ _ Hk). f_equal.
    apply IH; [discriminate|exact Hks'].
Qed.

Lemma scan_fold (files : list (option string)) (acc : gset string) (k : string) :
  k ∈ fold_left
        (fun unique_keys f =>
           match f with
           | Some content => unique_keys ∪ content_keys content
           | None => unique_keys
           end) files acc
  <-> k ∈ acc \/ exists content, Some content ∈ files /\ k ∈ content_keys content.
Proof.
  revert acc. induction files as [|f files IH]; intros acc; cbn [fold_left].
  - split; [auto|]. intros [H|(c & Hc & _)]; [exact H|inversion Hc].
  - rewrite IH. destruct f as [c|].
    + rewrite elem_of_union. split.
      * intros [[H|H]|(c' & Hc' & H)]; [left; exact H| |].
        -- right. exists c. split; [left|exact H].
        -- right. exists c'. split; [right; exact Hc'|exact H].
      * intros [H|(c' & Hc' & H)]; [left; left; exact H|].
        apply elem_of_cons in Hc' as [[= ->]|Hc']; [left; right; exact H|].
        right. exists c'. split; assumption.
    + split.
      * intros [H|(c' & Hc' & H)]; [left; exact H|].
        right. exists c'. split; [right; exact Hc'|exact H].
      * intros [H|(c' & Hc' & H)]; [left; exact H|].
        apply elem_of_cons in Hc' as [[=]|Hc']. right. exists c'. split; assumption.
Qed.

Lemma findall_from_cons (c : ascii) (s : string) :
  findall_from O (String c s) =
    match match_cite (String c s) with
    | Some (g, rest) => g :: findall_from (String.length s - String.length rest) s
    | None => findall_from O s
    end.
Proof. reflexivity. Qed.

Lemma findall_command (variant body rest : string) (starred : bool) :
  letters variant = true ->
  brace_free body = true ->
  body <> EmptyString ->
  findall_cite
    ("\cite" +:+ variant +:+ (if starred then "*" else "")
     +:+ String "{" (body +:+ String "}" rest))
  = body :: findall_cite rest.
Proof.
  intros Hv Hb Hne. unfold findall_cite. rewrite cite_prefix.
  assert (Hm : match_cite
                 (String "\" (String "c" (String "i" (String "t" (String "e"
                    (variant +:+ (if starred then "*" else "")
                     +:+ String "{" (body +:+ String "}" rest)))))))
               = Some (body, rest)).
  { unfold match_cite. cbn [PyStr.startswith Ascii.eqb Bool.eqb drop].
    rewrite drop_letters_app;
      [|exact Hv|destruct starred; reflexivity].
    assert (Hs : drop_star ((if starred then "*" else "")
                                +:+ String "{" (body +:+ String "}" rest))
                 = String "{" (body +:+ String "}" rest))
      by (destruct starred; reflexivity).
    rewrite Hs, (take_group_app _ _ Hb).
    destruct body; [contradiction|reflexivity]. }
  rewrite findall_from_cons, Hm. f_equal.
  set (a := String "c" (String "i" (String "t" (String "e"
              (variant +:+ (if starred then "*" else "")
               +:+ String "{" (body +:+ String "}" EmptyString)))))).
  assert (Ha : String "c" (String "i" (String "t" (String "e"
                 (variant +:+ (if starred then "*" else "")
                  +:+ String "{" (body +:+ String "}" rest)))))
               = a +:+ rest).
  { unfold a. rewrite !append_cons. do 4 f_equal.
    rewrite !append_assoc, append_cons, append_assoc, append_cons, append_nil.
    reflexivity. }
  rewrite Ha, length_app.
  replace (String.length a + String.length rest - String.length rest)%nat
    with (String.length a) by lia.
  apply findall_skip.
Qed.


Lemma all_join (P : ascii -> bool) (ks : list string) :
  P ","%char = true -> Forall (fun k => all P k = true) ks -> all P (join_comma ks) = true.
Proof.
  intros Hc. induction 1 as [|k ks Hk Hks IH]; [reflexivity|].
  destruct ks as [|k' ks]; [exact Hk|].
  rewrite join_comma_cons, all_app, Hk. cbn [all andb]. rewrite Hc. exact IH.
Qed.

Lemma percent_free_no_comment (escaped : bool) (s : string) :
  all (not_char percent) s = true -> no_comment_from escaped s = true.
Proof.
  revert escaped. induction s as [|c s IH]; intros esc; [reflexivity|].
  cbn [all no_comment_from]. intros H. apply andb_true_iff in H as [Hc H].
  unfold not_char in Hc. apply negb_true_iff in Hc. rewrite Hc. cbn [andb negb].
  exact (IH _ H).
Qed.

Lemma strip_all_trimmed (ks : list string) :
  Forall trimmed ks -> PyStr.strip <$> ks = ks.
Proof.
  induction 1 as [|k ks Hk _ IH]; [reflexivity|]. cbn [fmap list_fmap].
  rewrite Hk. f_equal. exact IH.
Qed.

End ScanFacts.

(** X16. A citation command at the head of a text, [\cite], letters, an
    optional star and a group in braces that is not empty and holds no
    brace, is one match whose group is the content of the braces; the scan
    goes on after the closing brace. *)
Theorem findall_cite_command (variant body rest : string) (starred : bool) :
  Text.letters variant = true ->
  Text.brace_free body = true ->
  body <> EmptyString ->
  Tex.findall_cite
    ("\cite" +:+ variant +:+ (if starred then "*" else "")
     +:+ String "{" (body +:+ String "}" rest))
  = body :: Tex.findall_cite rest.
Proof. exact (ScanFacts.findall_command variant body rest starred). Qed.

(** X17. Every key of the scan is trimmed and holds no comma and no brace. *)
Theorem scan_keys_clean (tex_files : list (option string)) (k : string) :
  k ∈ Tex.scan_tex_files tex_files ->
  Text.trimmed k /\ Text.comma_free k = true /\ Text.brace_free k = true.
Proof.
  unfold Tex.scan_tex_files. rewrite ScanFacts.scan_fold.
  intros [H|(c & _ & H)]; [inversion H|].
  unfold Tex.content_keys in H. rewrite elem_of_list_to_set, list_elem_of_bind in H.
  destruct H as (g & Hk & Hg).
  pose proof (ScanFacts.findall_groups O (Tex.strip_comments c)) as HF.
  rewrite Forall_forall in HF. destruct (HF g Hg) as [Hb _].
  unfold Tex.match_keys in Hk. apply list_elem_of_fmap in Hk as (p & -> & Hp).
  pose proof (ScanFacts.split_comma_pieces _ g Hb) as HP.
  rewrite Forall_forall in HP. destruct (HP p Hp) as [Hpb Hpc].
  split; [apply TextFacts.strip_trimmed|].
  split; apply TextFacts.all_strip; assumption.
Qed.

(** X18. The scan is the union of the keys of the files that can be read:
    a file that cannot be read adds nothing and takes nothing away, and the
    order of the files does not matter. *)
Theorem scan_tex_files_union (tex_files : list (option string)) (k : string) :
  k ∈ Tex.scan_tex_files tex_files <->
  exists content : string, Some content ∈ tex_files /\ k ∈ Tex.content_keys content.
Proof.
  unfold Tex.scan_tex_files. rewrite ScanFacts.scan_fold. split.
  - intros [H|H]; [inversion H|exact H].
  - intros H. right. exact H.
Qed.

(** X19. The keys listed in a citation command are the keys scanned from
    it: for keys that are trimmed, not empty, and free of commas, braces
    and percent signs, the command [\cite{k1,...,kn}] gives exactly these
    keys. *)
Theorem scan_finds_cited_keys (ks : list string) :
  ks <> [] ->
  Forall citable ks ->
  Tex.content_keys ("\cite{" +:+ join_comma ks +:+ "}") = list_to_set ks.
Proof.
  intros Hne Hks.
  assert (Hall : forall P : ascii -> bool,
             (forall k, citable k -> Text.all P k = true) ->
             Forall (fun k => Text.all P k = true) ks).
  { intros P HP. eapply Forall_impl; [exact Hks|exact HP]. }
  assert (Hcf : Forall (fun k => Text.comma_free k = true) ks)
    by (apply Hall; intros k Hk; apply Hk).
  assert (Hbf : Text.brace_free (join_comma ks) = true)
    by (apply ScanFacts.all_join; [reflexivity|apply Hall; intros k Hk; apply Hk]).
  assert (Hpf : Text.all (Text.not_char Tex.percent) (join_comma ks) = true)
    by (apply ScanFacts.all_join; [reflexivity|apply Hall; intros k Hk; apply Hk]).
  assert (Hj : join_comma ks <> EmptyString).
  { destruct ks as [|k ks']; [contradiction|].
    inversion Hks as [|? ? Hk _]; subst. destruct Hk as (_ & Hk & _).
    destruct ks'; [exact Hk|]. rewrite ScanFacts.join_comma_cons.
    destruct k; [contradiction|discriminate]. }
  unfold Tex.content_keys, Tex.strip_comments.
  rewrite TexFacts.strip_from_fixed.
  2:{ apply ScanFacts.percent_free_no_comment.
      rewrite !TextFacts.all_app, Hpf. reflexivity. }
  assert (Hf : Tex.findall_cite ("\cite{" +:+ join_comma ks +:+ "}")
               = [join_comma ks])
    by exact (ScanFacts.findall_command "" (join_comma ks) "" false
                eq_refl Hbf Hj).
  rewrite Hf. cbn [mbind list_bind].
  rewrite app_nil_r. unfold Tex.match_keys.
  rewrite (ScanFacts.split_join ks Hne Hcf).
  rewrite ScanFacts.strip_all_trimmed; [reflexivity|].
  eapply Forall_impl; [exact Hks|]. intros k Hk. apply Hk.
Qed.

(** ** The bibliography *)

Module BibFacts.

Import Bib BibAux Text TextFacts.

Lemma add_entries_union (name : string) (es : list raw_entry)
    (m : gmap string bib_entry) :
  add_entries name es m = add_entries name es ∅ ∪ m.
Proof.
  revert m. induction es as [|entry es IH]; intros m; cbn [add_entries].
  - rewrite (left_id_L ∅ (∪)). reflexivity.
  - destruct (entry !! "ID") as [id|]; [|rewrite (left_id_L ∅ (∪)); reflexivity].
    rewrite IH, (IH (<[id:=_]> ∅)).
    rewrite <- (assoc_L (∪)). f_equal.
    rewrite <- insert_union_l, (left_id_L ∅ (∪)). reflexivity.
Qed.

Lemma parse_fold (fs : list bib_file) : parse_bib_files fs = fold_left step fs ∅.
Proof. reflexivity. Qed.

Lemma fold_step_union (fs : list bib_file) (m : gmap string bib_entry) :
  fold_left step fs m = fold_left step fs ∅ ∪ m.
Proof.
  revert m. induction fs as [|f fs IH]; intros m; cbn [fold_left].
  - rewrite (left_id_L ∅ (∪)). reflexivity.
  - rewrite IH, (IH (step ∅ f)). rewrite <- (assoc_L (∪)). f_equal.
    unfold step. destruct (entries f) as [es|].
    + apply add_entries_union.
    + rewrite (left_id_L ∅ (∪)). reflexivity.
Qed.

Lemma add_entries_from (name : string) (es : list raw_entry)
    (m : gmap string bib_entry) (k : string) (e : bib_entry) :
  add_entries name es m !! k = Some e ->
  m !! k = Some e
  \/ exists raw, raw ∈ es /\ raw !! "ID" = Some k /\ e = record_of name k raw.
Proof.
  revert m. induction es as [|entry es IH]; intros m; cbn [add_entries].
  - auto.
  - destruct (entry !! "ID") as [id|] eqn:Hid; [|auto].
    intros H. destruct (IH _ H) as [Hm|(raw & Hin & Hraw & ->)].
    + destruct (decide (id = k)) as [->|Hne].
      * rewrite lookup_insert_eq in Hm. injection Hm as <-.
        right. exists entry. split; [left|]. split; [exact Hid|reflexivity].
      * rewrite lookup_insert_ne in Hm by exact Hne. left. exact Hm.
    + right. exists raw. split; [right; exact Hin|]. split; [exact Hraw|reflexivity].
Qed.

Lemma fold_step_from (fs : list bib_file) (m : gmap string bib_entry)
    (k : string) (e : bib_entry) :
  fold_left step fs m !! k = Some e -> m !! k = Some e \/ from_files fs k e.
Proof.
  revert m. induction fs as [|f fs IH]; intros m; cbn [fold_left]; [auto|].
  intros H. destruct (IH _ H) as [Hm|(f' & es & raw & Hf & He & Hin & Hid & ->)].
  - unfold step in Hm. destruct (entries f) as [es|] eqn:He; [|auto].
    destruct (add_entries_from _ _ _ _ _ Hm) as [Hm'|(raw & Hin & Hid & ->)]; [auto|].
    right. exists f, es, raw. repeat split; [left|assumption..].
  - right. exists f', es, raw. repeat split; [right; exact Hf|assumption..].
Qed.

Lemma parse_from (fs : list bib_file) (k : string) (e : bib_entry) :
  parse_bib_files fs !! k = Some e -> from_files fs k e.
Proof.
  rewrite parse_fold. intros H.
  destruct (fold_step_from _ _ _ _ H) as [Hm|Hf]; [|exact Hf].
  rewrite lookup_empty in Hm. discriminate.
Qed.

Lemma remove_markup_clean (s : string) :
  brace_free (remove_markup s) = true /\ newline_free (remove_markup s) = true.
Proof.
  unfold brace_free, newline_free, not_char.
  induction s as [|c s [IH1 IH2]]; [split; reflexivity|]. cbn [remove_markup].
  destruct (Tex.is_brace c) eqn:Hb; [split; assumption|].
  destruct (Ascii.eqb c Tex.newline) eqn:Hn; [split; assumption|].
  cbn [orb all]. rewrite Hb, Hn. split; assumption.
Qed.

Lemma newlines_to_spaces_clean (s : string) :
  newline_free (newlines_to_spaces s) = true.
Proof.
  unfold newline_free, not_char.
  induction s as [|c s IH]; [reflexivity|]. cbn [newlines_to_spaces all].
  rewrite IH. destruct (Ascii.eqb c Tex.newline) eqn:Hn; [reflexivity|].
  rewrite Hn. reflexivity.
Qed.

Lemma add_entries_app (name : string) (es es' : list raw_entry)
    (m : gmap string bib_entry) :
  Forall (fun raw => is_Some (raw !! "ID")) es ->
  add_entries name (es ++ es') m = add_entries name es' (add_entries name es m).
Proof.
  intros H. revert m. induction H as [|raw es [id Hid] _ IH]; intros m; [reflexivity|].
  cbn [app add_entries]. rewrite Hid. apply IH.
Qed.

End BibFacts.

(** X20. Later files win: the bibliography of a list of files is that of
    the files read last, completed by that of the files read first. A file
    that cannot be read changes nothing. *)
Theorem parse_bib_files_app (fs1 fs2 : list Bib.bib_file) :
  Bib.parse_bib_files (fs1 ++ fs2)
  = Bib.parse_bib_files fs2 ∪ Bib.parse_bib_files fs1.
Proof.
  rewrite !BibFacts.parse_fold, fold_left_app. apply BibFacts.fold_step_union.
Qed.

(** X21. Every entry of the bibliography comes from a file that could be
    read: it is the record of a BibTeX entry of that file whose identifier
    is the key it is stored under, with the name of the file. *)
Theorem parse_bib_files_provenance (bib_files : list Bib.bib_file)
    (k : string) (e : bib_entry) :
  Bib.parse_bib_files bib_files !! k = Some e ->
  bib_key e = k
  /\ bib_raw_entry e !! "ID" = Some k
  /\ exists (f : Bib.bib_file) (es : list (gmap string string)),
       f ∈ bib_files /\ Bib.entries f = Some es /\ bib_raw_entry e ∈ es
       /\ bib_source_file e = Bib.file_name f
       /\ e = Bib.record_of (Bib.file_name f) k (bib_raw_entry e).
Proof.
  intros H.
  destruct (BibFacts.parse_from _ _ _ H) as (f & es & raw & Hf & He & Hin & Hid & ->).
  cbn. split; [reflexivity|]. split; [exact Hid|].
  exists f, es. repeat split; assumption.
Qed.

(** X22. The titles of the bibliography are clean: no brace, no newline,
    no white space at either end; the author strings hold no newline. *)
Theorem parse_bib_files_clean (bib_files : list Bib.bib_file)
    (k : string) (e : bib_entry) :
  Bib.parse_bib_files bib_files !! k = Some e ->
  Text.trimmed (bib_title e)
  /\ Text.brace_free (bib_title e) = true
  /\ Text.newline_free (bib_title e) = true
  /\ Text.newline_free (bib_author e) = true.
Proof.
  intros H.
  destruct (BibFacts.parse_from _ _ _ H) as (f & es & raw & _ & _ & _ & _ & ->).
  cbn [Bib.record_of bib_title bib_author].
  destruct (BibFacts.remove_markup_clean (Bib.field raw "title" "")) as [Hb Hn].
  split; [apply TextFacts.strip_trimmed|].
  split; [apply TextFacts.all_strip, Hb|].
  split; [apply TextFacts.all_strip, Hn|].
  apply BibFacts.newlines_to_spaces_clean.
Qed.

(** X23. The last entry read for a key is the one stored: when the entries
    of the last file all have an identifier, the last of them is found
    under its identifier, whatever was read before. *)
Theorem parse_bib_files_last_wins (bib_files : list Bib.bib_file) (name id : string)
    (es : list (gmap string string)) (raw : gmap string string) :
  Forall (fun r => is_Some (r !! "ID")) es ->
  raw !! "ID" = Some id ->
  Bib.parse_bib_files (bib_files ++ [Bib.BibFile name (Some (es ++ [raw]))]) !! id
  = Some (Bib.record_of name id raw).
Proof.
  intros Hes Hid. rewrite BibFacts.parse_fold, fold_left_app.
  cbn [fold_left]. unfold BibAux.step at 1. cbn [Bib.entries Bib.file_name].
  rewrite (BibFacts.add_entries_app _ _ _ _ Hes). cbn [Bib.add_entries].
  rewrite Hid. apply lookup_insert_eq.
Qed.

(** ** The first author token, again *)

Module TokenShape.

Import PyStr Text TextFacts.

Lemma split_head_all (P : ascii -> bool) (sep s : string) :
  all P s = true -> all P (split_head sep s) = true.
Proof.
  induction s as [|c s IH]; intros H.
  - rewrite TokenFacts.split_head_eq. destruct (startswith sep ""); reflexivity.
  - rewrite TokenFacts.split_head_eq. destruct (startswith sep (String c s)); [reflexivity|].
    cbn [all] in *. apply andb_true_iff in H as [Hc H]. rewrite Hc. exact (IH H).
Qed.

Lemma split_head_comma_free (s : string) : comma_free (split_head "," s) = true.
Proof.
  unfold comma_free, not_char. induction s as [|c s IH]; [reflexivity|].
  rewrite TokenFacts.split_head_eq, TokenFacts.startswith_comma.
  rewrite Ascii.eqb_sym. destruct (Ascii.eqb c ",") eqn:Hc; [reflexivity|].
  cbn [all]. rewrite Hc. exact IH.
Qed.

End TokenShape.

(** X24. The first author token holds no comma and has no white space at
    either end. *)
Theorem bib_author_first_clean (author : string) :
  Text.trimmed (bib_author_first author)
  /\ Text.comma_free (bib_author_first author) = true.
Proof.
  unfold bib_author_first. split; [apply TextFacts.strip_trimmed|].
  apply TextFacts.all_strip, TokenShape.split_head_all,
    TokenShape.split_head_comma_free.
Qed.

(** * The theorems at work on the scenarios *)

Section Scenarios.

Import Demo.
#[local] Existing Instance Demo.library.

Lemma search_fails_soft_witness :
  result_of (search (N := net_down) DBLP attention 0%nat) = Ok None.
Proof.
  apply (search_fails_soft (N := net_down) DBLP attention 0%nat).
  exact (transport_error DBLP).
Defined.

Lemma primary_hit_skips_secondary_witness :
  result_of (verify (N := net_primary) attention 0%nat) = Ok (Some vaswani_dblp).
Proof.
  apply (primary_hit_skips_secondary (N := net_primary) attention 0%nat vaswani_dblp
           (Fuzz.ratio (PyStr.lower attention) (PyStr.lower "Attention is All you Need."))).
  - vm_compute. reflexivity.
  - reflexivity.
  - vm_compute. discriminate.
Defined.



Lemma author_check_witness :
  result_of (classify (N := net_secondary) bib "bar2021" 0%nat) =
    Ok (info_of bib "bar2021" Verified (Some vaswani_openalex), None).
Proof.
  apply (author_check (N := net_secondary) bib "bar2021"
           (entry "bar2021" attention "Vaswani, Ashish") 0%nat vaswani_openalex
           (Fuzz.ratio (PyStr.lower attention) (PyStr.lower attention))
           ["Ashish Vaswani"; "Noam Shazeer"]).
  - vm_compute. reflexivity.
  - vm_compute. reflexivity.
  - reflexivity.
  - vm_compute. discriminate.
  - reflexivity.
  - left. vm_compute. reflexivity.
Defined.


Lemma not_found_iff_no_candidate_kept_witness :
  not_found_high (N := net_low) bib "bar2021" 0%nat
  <-> no_candidate_kept (N := net_low) attention 0%nat.
Proof.
  apply (not_found_iff_no_candidate_kept (N := net_low) bib "bar2021"
           (entry "bar2021" attention "Vaswani, Ashish") 0%nat).
  vm_compute. reflexivity.
Defined.

(** The claim C2 as it is stated fails: the primary provider yields a
    candidate, which [verify] drops for its score of less than 70, the
    secondary one yields none, and the key is classified NotFound. *)
Lemma not_found_with_primary_candidate :
  ~ (not_found_high (N := net_low) bib "bar2021" 0%nat
     <-> both_providers_none (N := net_low) attention 0%nat).
Proof.
  intros [Hnf _].
  assert (H : not_found_high (N := net_low) bib "bar2021" 0%nat).
  { eexists. vm_compute. repeat split. }
  destruct (Hnf H) as [Hd _]. vm_compute in Hd. discriminate.
Qed.

Lemma one_outcome_per_key_witness :
  ci_key <$> all_citations_report reports_secondary = ["bar2021"; "foo2020"]
  /\ issues_match_outcomes reports_secondary
  /\ forall key : string,
       key ∈ (issue_key <$> hallucination_report reports_secondary) <->
       exists ci : citation_info,
         ci ∈ all_citations_report reports_secondary
         /\ ci_key ci = key /\ ci_status ci ≠ Verified.
Proof.
  apply (one_outcome_per_key (N := net_secondary) ["bar2021"; "foo2020"] bib 0%nat).
  vm_compute. reflexivity.
Defined.

Lemma rerun_same_outcomes_witness :
  same_reports
    (result_of (main (N := net_secondary) ["bar2021"; "foo2020"] bib 0%nat))
    (result_of (main (N := net_secondary) ["foo2020"; "bar2021"] bib 7%nat)).
Proof.
  refine (proj1 (rerun_same_outcomes (N := net_secondary)
                   (answers (fun _ => dblp_no_hit)
                      (fun _ => openalex_answer attention
                                  ["Ashish Vaswani"; "Noam Shazeer"]))
                   bib ["bar2021"; "foo2020"] ["foo2020"; "bar2021"] 0%nat 7%nat _ _)).
  - intros [] t w; reflexivity.
  - apply perm_swap.
Defined.

End Scenarios.

(** * Answers the run does not survive *)

Section Aborts.

Import Demo Samples.

(** C3. An input on which the code does not do what the claim says. The
    primary provider has no hit; the secondary provider answers the title
    of the entry with the same title and two authors, the first with the
    name [null], the second named "Ashish Vaswani". The recorded author is
    "Vaswani, Ashish". [verify] returns the candidate, its title scores 90
    or more, and the first author token has a partial ratio above 80
    against the second name of the list: by the claim the key is Verified.
    In the code [fa.lower()] raises on the first name, whatever
    [fuzz.partial_ratio] is, and the turn of the key ends in
    AttributeError. *)
Theorem null_author_aborts_check :
  (forall L : Library,
     result_of (verify (N := net_null_author) (L := L) attention 0%nat)
     = Ok (Some null_author))
  /\ (exists s : Q, title_score attention (title null_author) = Ok s /\ (90 <= s)%Q)
  /\ (80 < partial_ratio_windows (PyStr.lower (bib_author_first "Vaswani, Ashish"))
                                 (PyStr.lower "Ashish Vaswani"))%Q
  /\ (forall L : Library,
        result_of (classify (N := net_null_author) (L := L) bib "bar2021" 0%nat)
        = Raise AttributeError).
Proof.
  split; [intros L; vm_compute; reflexivity|].
  split; [eexists; split; [reflexivity|vm_compute; discriminate]|].
  split; [vm_compute; reflexivity|].
  intros L. vm_compute. reflexivity.
Qed.

(** C6. A run on which the code does not do what the claim says. The scan
    has the keys "foo2020", without an entry, and "bar2021"; for the title
    of "bar2021" the primary provider has no hit and the secondary
    provider answers with a work whose title is [null]. The turn of
    "foo2020" gives its outcome, [verify] returns the candidate for
    "bar2021", and [found_title.lower()] raises: the run ends in
    AttributeError after the three events of the lookup and returns no
    report, so that neither key has an outcome. *)
Theorem null_title_aborts_run (L : Library) :
  result_of (classify (N := net_null_title) (L := L) bib "foo2020" 0%nat)
  = Ok (info_of bib "foo2020" MissingInBib None,
        Some (MissingIssue "foo2020" "Citation key found in TeX but missing in .bib files"))
  /\ result_of (verify (N := net_null_title) (L := L) attention 0%nat)
     = Ok (Some untitled)
  /\ main (N := net_null_title) (L := L) ["foo2020"; "bar2021"] bib 0%nat
     = (Raise AttributeError, 2%nat,
        [EvGet DBLP attention; EvSleep API_DELAY; EvGet OpenAlex attention])
  /\ result_of (run (N := net_null_title) (L := L)
                  [Bib.BibFile "refs.bib"
                     (Some [{[ "ID" := "bar2021"; "title" := attention;
                               "author" := "Vaswani, Ashish" ]}])]
                  ["foo2020"; "bar2021"] 0%nat)
     = Raise AttributeError.
Proof.
  split; [vm_compute; reflexivity|].
  split; [vm_compute; reflexivity|].
  split; [vm_compute; reflexivity|].
  vm_compute. reflexivity.
Qed.

End Aborts.

(** * The further properties at work *)

Section FurtherScenarios.

Import Demo Samples.
#[local] Existing Instance Demo.library.

Lemma verify_keeps_confident_primary_witness :
  (exists s : Q, title_score attention (title vaswani_dblp) = Ok s /\ (70 <= s)%Q)
  /\ trace_of (verify (N := net_primary) attention 0%nat) = [EvGet DBLP attention].
Proof.
  apply (verify_keeps_confident_primary (N := net_primary) attention 0%nat vaswani_dblp).
  - vm_compute. reflexivity.
  - reflexivity.
Defined.

Lemma verify_falls_back_witness :
  result_of (verify (N := net_secondary) attention 0%nat)
  = result_of (_search_openalex (N := net_secondary) attention
                 (fallback_world (N := net_secondary) attention 0%nat))
  /\ world_of (verify (N := net_secondary) attention 0%nat)
     = world_of (_search_openalex (N := net_secondary) attention
                   (fallback_world (N := net_secondary) attention 0%nat))
  /\ trace_of (verify (N := net_secondary) attention 0%nat)
     = [EvGet DBLP attention; EvSleep API_DELAY; EvGet OpenAlex attention].
Proof.
  apply (verify_falls_back (N := net_secondary) attention 0%nat).
  left. vm_compute. reflexivity.
Defined.

Lemma same_title_never_mismatch_witness :
  ci_status (info_of bib "bar2021" Verified (Some vaswani_openalex)) = Verified
  \/ ci_status (info_of bib "bar2021" Verified (Some vaswani_openalex)) = AuthorMismatch.
Proof.
  refine (same_title_never_mismatch (N := net_secondary) bib "bar2021"
            (entry "bar2021" attention "Vaswani, Ashish") 0%nat vaswani_openalex
            attention (info_of bib "bar2021" Verified (Some vaswani_openalex), None)
            _ _ _ _ _).
  - vm_compute. reflexivity.
  - vm_compute. reflexivity.
  - reflexivity.
  - reflexivity.
  - vm_compute. reflexivity.
Defined.

Lemma openalex_top_hit_only_witness :
  openalex_body (Response 200 (Some (JObj openalex_data)))
  = openalex_body (Response 200 (Some (JObj {["results" := JArr [work attention]]}))).
Proof.
  apply (openalex_top_hit_only openalex_data (work attention) [work "Another paper"]).
  vm_compute. reflexivity.
Defined.

Lemma dblp_top_hit_only_witness :
  dblp_body (Response 200 (Some (JObj dblp_data)))
  = dblp_body (dblp_single_hit (obj [("info", JObj dblp_info)])).
Proof.
  apply (dblp_top_hit_only dblp_data dblp_result dblp_hits_obj
           (obj [("info", JObj dblp_info)]) [obj [("info", obj [])]]).
  - vm_compute. reflexivity.
  - vm_compute. reflexivity.
  - vm_compute. reflexivity.
Defined.

Lemma dblp_single_author_as_list_witness :
  dblp_body (dblp_hit dblp_info)
  = dblp_body (dblp_hit (<["authors" := JObj {["author" := JArr [JStr "Ashish Vaswani"]]}]>
                           dblp_info)).
Proof.
  apply (dblp_single_author_as_list dblp_info {["author" := JStr "Ashish Vaswani"]}
           (JStr "Ashish Vaswani")).
  - right. exists "Ashish Vaswani". reflexivity.
  - vm_compute. reflexivity.
  - vm_compute. reflexivity.
Defined.

Lemma report_outcomes_consistent_witness :
  Forall (outcome_consistent bib) (all_citations_report reports_secondary).
Proof.
  apply (report_outcomes_consistent (N := net_secondary) ["bar2021"; "foo2020"] bib 0%nat).
  vm_compute. reflexivity.
Defined.

Lemma report_issues_justified_witness :
  Forall (issue_justified bib) (hallucination_report reports_mismatch).
Proof.
  apply (report_issues_justified (N := net_mismatch) ["bar2021"] bib 0%nat).
  vm_compute. reflexivity.
Defined.

Lemma scan_of_samples : Tex.scan_tex_files tex_files = list_to_set order.
Proof. vm_compute. reflexivity. Defined.

Lemma order_enumerates : enumerates order tex_files.
Proof.
  split.
  - apply (bool_decide_unpack _). vm_compute. exact I.
  - intros k. rewrite scan_of_samples, elem_of_list_to_set. reflexivity.
Defined.

Lemma run_outputs_witness :
  exists (all : list citation_info) (issues : list issue),
    (forall k : string, k ∈ Tex.scan_tex_files tex_files <-> k ∈ (ci_key <$> all))
    /\ NoDup (ci_key <$> all)
    /\ length issues = length (filter (fun ci => not_verified ci = true) all)
    /\ write_reports reports_run
       = WriteAllCitations all
         :: match issues with
            | [] => [PrintNoHallucinations]
            | _ :: _ => [WriteHallucinationReport issues;
                         PrintFoundIssues (length issues)]
            end
         ++ [PrintSaved].
Proof.
  apply (run_outputs (N := net_secondary) tex_files bib_files order 0%nat
           (write_reports reports_run)).
  - exact order_enumerates.
  - vm_compute. reflexivity.
Defined.

Lemma strip_comments_line_witness :
  Tex.strip_comments ("They cost 100\% more " +:+ String Tex.percent " \cite{hidden}")
  = "They cost 100\% more ".
Proof.
  apply (strip_comments_line "They cost 100\% more " " \cite{hidden}");
    vm_compute; reflexivity.
Defined.

Lemma findall_cite_command_witness :
  Tex.findall_cite
    ("\cite" +:+ "p" +:+ "*" +:+ String "{" ("bar2021, foo2020" +:+ String "}" " and more"))
  = "bar2021, foo2020" :: Tex.findall_cite " and more".
Proof.
  apply (findall_cite_command "p" "bar2021, foo2020" " and more" true).
  - vm_compute. reflexivity.
  - vm_compute. reflexivity.
  - discriminate.
Defined.

Lemma scan_keys_clean_witness :
  Text.trimmed "bar2021" /\ Text.comma_free "bar2021" = true
  /\ Text.brace_free "bar2021" = true.
Proof.
  apply (scan_keys_clean tex_files "bar2021").
  rewrite scan_of_samples. apply elem_of_list_to_set. left.
Defined.

Lemma order_citable : Forall citable order.
Proof.
  repeat constructor; try discriminate; vm_compute; reflexivity.
Defined.

Lemma scan_finds_cited_keys_witness :
  Tex.content_keys ("\cite{" +:+ join_comma order +:+ "}") = list_to_set order.
Proof.
  apply (scan_finds_cited_keys order).
  - discriminate.
  - exact order_citable.
Defined.

Lemma parse_bib_files_provenance_witness :
  bib_key (Bib.record_of "refs.bib" "bar2021" raw_attention) = "bar2021"
  /\ bib_raw_entry (Bib.record_of "refs.bib" "bar2021" raw_attention) !! "ID"
     = Some "bar2021"
  /\ exists (f : Bib.bib_file) (es : list (gmap string string)),
       f ∈ bib_files /\ Bib.entries f = Some es
       /\ bib_raw_entry (Bib.record_of "refs.bib" "bar2021" raw_attention) ∈ es
       /\ bib_source_file (Bib.record_of "refs.bib" "bar2021" raw_attention)
          = Bib.file_name f
       /\ Bib.record_of "refs.bib" "bar2021" raw_attention
          = Bib.record_of (Bib.file_name f) "bar2021"
              (bib_raw_entry (Bib.record_of "refs.bib" "bar2021" raw_attention)).
Proof.
  apply (parse_bib_files_provenance bib_files "bar2021"
           (Bib.record_of "refs.bib" "bar2021" raw_attention)).
  vm_compute. reflexivity.
Defined.

Lemma parse_bib_files_clean_witness :
  Text.trimmed (bib_title (Bib.record_of "refs.bib" "bar2021" raw_attention))
  /\ Text.brace_free (bib_title (Bib.record_of "refs.bib" "bar2021" raw_attention)) = true
  /\ Text.newline_free (bib_title (Bib.record_of "refs.bib" "bar2021" raw_attention)) = true
  /\ Text.newline_free (bib_author (Bib.record_of "refs.bib" "bar2021" raw_attention)) = true.
Proof.
  apply (parse_bib_files_clean bib_files "bar2021"
           (Bib.record_of "refs.bib" "bar2021" raw_attention)).
  vm_compute. reflexivity.
Defined.

Lemma parse_bib_files_last_wins_witness :
  Bib.parse_bib_files
    (bib_files ++ [Bib.BibFile "late.bib" (Some ([raw_attention] ++ [raw_draft]))])
  !! "bar2021"
  = Some (Bib.record_of "late.bib" "bar2021" raw_draft).
Proof.
  apply (parse_bib_files_last_wins bib_files "late.bib" "bar2021" [raw_attention] raw_draft).
  - repeat constructor. exists "bar2021". vm_compute. reflexivity.
  - vm_compute. reflexivity.
Defined.

End FurtherScenarios.
